(** * OpenBridge: endpoint-to-tool synthesis and the local image tools

    A shallow embedding of [src/OpenBridge/tools/api.py],
    [src/OpenBridge/tools/analysis.py] and [src/OpenBridge/tools/files.py].

    Conventions of the embedding:
    - Python [str] is [string]; characters are bytes, and [lower]/[upper]
      act on the ASCII letters only (method names and OpenAPI paths are
      ASCII);
    - a parsed JSON document is a [json] tree whose objects are association
      lists in document order (Python dicts iterate in insertion order);
      JSON numbers are integers;
    - a dictionary received at call time (tool parameters, a bounding box)
      is a [gmap] with string keys;
    - a Python exception is a [Raise] result; [try]/[except] is a match on
      that result;
    - what the operating system, the network and the imaging libraries
      answer is an explicit argument of the function that asks; of the
      requests library the model keeps the exception classes that the
      code tells apart and the rule of [raise_for_status];
    - log messages of the program are left out; of the server library
      ([mcp.server.fastmcp]) the model keeps the rule of [add_tool] for a
      name that is taken, and the warning it logs then.

    The first part holds the embedding, one module per source file or
    component; the module [DataModel] states the shapes of the data model
    and the inputs of the examples; the second part holds the
    properties. *)

From Stdlib Require Import ZArith Lia Ascii.
From stdpp Require Import base option list strings pretty gmap.

Local Open Scope string_scope.
Local Open Scope list_scope.
Local Open Scope Z_scope.

(** ** Python strings *)

Module Py.

Definition is_upper_ascii (c : ascii) : bool :=
  let n := N_of_ascii c in ((65 <=? n) && (n <=? 90))%N.

Definition is_lower_ascii (c : ascii) : bool :=
  let n := N_of_ascii c in ((97 <=? n) && (n <=? 122))%N.

Definition lower_ascii (c : ascii) : ascii :=
  if is_upper_ascii c then ascii_of_N (N_of_ascii c + 32) else c.

Definition upper_ascii (c : ascii) : ascii :=
  if is_lower_ascii c then ascii_of_N (N_of_ascii c - 32) else c.

Fixpoint map_string (f : ascii -> ascii) (s : string) : string :=
  match s with
  | EmptyString => EmptyString
  | String c s' => String (f c) (map_string f s')
  end.

(** [s.lower()] and [s.upper()] *)
Definition lower (s : string) : string := map_string lower_ascii s.
Definition upper (s : string) : string := map_string upper_ascii s.

(** No character of [s] is an upper-case letter. *)
Fixpoint no_upper (s : string) : bool :=
  match s with
  | EmptyString => true
  | String c s' => negb (is_upper_ascii c) && no_upper s'
  end.

(** [s.startswith(p)] *)
Fixpoint startswith (p s : string) : bool :=
  match p, s with
  | EmptyString, _ => true
  | String a p', String b s' => Ascii.eqb a b && startswith p' s'
  | String _ _, EmptyString => false
  end.

(** [sub in s] *)
Fixpoint contains (sub s : string) : bool :=
  startswith sub s ||
  match s with
  | EmptyString => false
  | String _ s' => contains sub s'
  end.

(** No character of [s] is a letter. *)
Fixpoint no_letter (s : string) : bool :=
  match s with
  | EmptyString => true
  | String c s' =>
      negb (is_upper_ascii c) && negb (is_lower_ascii c) && no_letter s'
  end.

Definition starts_with_underscore (s : string) : bool := startswith "_" s.

(** [s.replace(old, new)] for a non-empty [old]: the occurrences of [old]
    are found from left to right and do not overlap.  [skip] counts the
    characters of the occurrence just replaced that are still to be
    dropped. *)
Fixpoint replace_from (old new : string) (skip : nat) (s : string) : string :=
  match s with
  | EmptyString => EmptyString
  | String c s' =>
      match skip with
      | S k => replace_from old new k s'
      | O =>
          if startswith old s
          then new +:+ replace_from old new (String.length old - 1) s'
          else String c (replace_from old new 0 s')
      end
  end.

Definition replace (old new s : string) : string := replace_from old new 0 s.

(** [s.split(sep)] for a separator of one character *)
Fixpoint split_on (sep : ascii) (s : string) : list string :=
  match s with
  | EmptyString => [EmptyString]
  | String c s' =>
      if Ascii.eqb c sep then EmptyString :: split_on sep s'
      else match split_on sep s' with
           | [] => [String c EmptyString]
           | piece :: pieces => String c piece :: pieces
           end
  end.

Fixpoint mem_ascii (c : ascii) (chars : string) : bool :=
  match chars with
  | EmptyString => false
  | String d chars' => if Ascii.eqb c d then true else mem_ascii c chars'
  end.

(** [s.lstrip(chars)] *)
Fixpoint lstrip (chars s : string) : string :=
  match s with
  | EmptyString => EmptyString
  | String c s' => if mem_ascii c chars then lstrip chars s' else s
  end.

End Py.

(** ** Name derivation ([api.py], [normalize_tool_name]) *)

Module Naming.
Import Py.

(** The chain of replacements applied to the string ["{method} {path}"],
    up to the collapsing step. *)
Definition separators_to_underscores (s : string) : string :=
  replace "-" "_" (replace "}" "" (replace "{" "" (replace "/" "_" (replace " " "_" s)))).

Definition normalize_tool_name (method path : string) : string :=
  lstrip "_"
    (replace "__" "_"
       (separators_to_underscores (lower method +:+ " " +:+ path))).

(** The derivation as the specification words it: the whole string
    ["{method} {path}"] is lower-cased before the same replacements. *)
Definition derive_name_spec (method path : string) : string :=
  lstrip "_"
    (replace "__" "_"
       (separators_to_underscores (lower (method +:+ " " +:+ path)))).

End Naming.

(** ** Python values, exceptions and dictionaries *)

Module Json.

(** A value produced by [json.loads].  The entries of a [JObj] are in
    document order and their keys are pairwise distinct. *)
#[warnings="-register-all"] Inductive json : Type :=
  | JNull
  | JBool (b : bool)
  | JNum (n : Z)
  | JStr (s : string)
  | JArr (items : list json)
  | JObj (fields : list (string * json)).

(** The exceptions the modelled code can meet. *)
Inductive exc : Type :=
  | AttributeError
  | KeyError (key : string)
  | TypeError
  | IndexError
  | ValueError (msg : string)
  | OSError (msg : string).

Inductive res (A : Type) : Type :=
  | Ok (a : A)
  | Raise (e : exc).
Arguments Ok {A} a.
Arguments Raise {A} e.

Definition bind {A B} (m : res A) (k : A -> res B) : res B :=
  match m with
  | Ok a => k a
  | Raise e => Raise e
  end.

Global Instance res_ret : MRet res := @Ok.
Global Instance res_bind : MBind res := fun A B k m => bind m k.

(** [str(e)] for a caught exception.  The texts that the interpreter
    composes for its own exceptions are not modelled: only the class is
    kept for them. *)
Definition exc_str (e : exc) : string :=
  match e with
  | AttributeError => "AttributeError"
  | KeyError key => "'" +:+ key +:+ "'"
  | TypeError => "TypeError"
  | IndexError => "IndexError"
  | ValueError msg => msg
  | OSError msg => msg
  end.

Definition raises {A} (m : res A) : bool :=
  match m with Ok _ => false | Raise _ => true end.

(** [bool(v)] *)
Definition truthy (v : json) : bool :=
  match v with
  | JNull => false
  | JBool b => b
  | JNum n => negb (n =? 0)
  | JStr s => negb (String.eqb s "")
  | JArr items => match items with [] => false | _ => true end
  | JObj fields => match fields with [] => false | _ => true end
  end.

Fixpoint assoc (k : string) (fields : list (string * json)) : option json :=
  match fields with
  | [] => None
  | (k', v) :: fields' => if String.eqb k k' then Some v else assoc k fields'
  end.

(** [v.get(k, dflt)]: only a dict has the attribute [get]. *)
Definition dict_get (v : json) (k : string) (dflt : json) : res json :=
  match v with
  | JObj fields => Ok (default dflt (assoc k fields))
  | _ => Raise AttributeError
  end.

(** [v.items()], [v.values()], [v.keys()] *)
Definition dict_items (v : json) : res (list (string * json)) :=
  match v with
  | JObj fields => Ok fields
  | _ => Raise AttributeError
  end.

Definition dict_values (v : json) : res (list json) :=
  match v with
  | JObj fields => Ok (map snd fields)
  | _ => Raise AttributeError
  end.

Definition dict_keys (v : json) : res (list string) :=
  match v with
  | JObj fields => Ok (map fst fields)
  | _ => Raise AttributeError
  end.

(** [v[k]] for a string [k] *)
Definition subscript (v : json) (k : string) : res json :=
  match v with
  | JObj fields =>
      match assoc k fields with
      | Some x => Ok x
      | None => Raise (KeyError k)
      end
  | _ => Raise TypeError
  end.

Fixpoint chars_of (s : string) : list json :=
  match s with
  | EmptyString => []
  | String c s' => JStr (String c EmptyString) :: chars_of s'
  end.

(** [for x in v]: the elements of a list, the keys of a dict, the
    characters of a string; other values are not iterable. *)
Definition py_iter (v : json) : res (list json) :=
  match v with
  | JArr items => Ok items
  | JObj fields => Ok (map (fun kv => JStr (fst kv)) fields)
  | JStr s => Ok (chars_of s)
  | _ => Raise TypeError
  end.

(** [k in d] for a dict [d] with string keys: lists and dicts are not
    hashable, and no number, boolean or [None] equals a string key. *)
Definition key_in {V} (k : json) (d : gmap string V) : res bool :=
  match k with
  | JStr s => Ok (bool_decide (is_Some (d !! s)))
  | JArr _ | JObj _ => Raise TypeError
  | _ => Ok false
  end.

(** A number, with [True] and [False] counting as 1 and 0; comparing or
    adding anything else to an integer raises [TypeError]. *)
Definition as_int (v : json) : res Z :=
  match v with
  | JNum n => Ok n
  | JBool b => Ok (if b then 1 else 0)
  | _ => Raise TypeError
  end.

Definition is_str (k : string) (v : json) : bool :=
  match v with
  | JStr s => String.eqb s k
  | _ => false
  end.

(** [k in v] for a string [k]: a key of a dict, an element of a list, a
    substring of a string; other values are not containers. *)
Definition py_in (k : string) (v : json) : res bool :=
  match v with
  | JObj fields => Ok (bool_decide (is_Some (assoc k fields)))
  | JArr items => Ok (existsb (is_str k) items)
  | JStr s => Ok (Py.contains k s)
  | _ => Raise TypeError
  end.

(** [all(k in v for k in keys)], which stops at the first [False]. *)
Fixpoint all_in (keys : list string) (v : json) : res bool :=
  match keys with
  | [] => Ok true
  | k :: keys' =>
      present ← py_in k v;
      if (present : bool) then all_in keys' v else Ok false
  end.

(** Equality of two hashable values used as dictionary keys. *)
Definition key_eqb (a b : json) : bool :=
  match a, b with
  | JNull, JNull => true
  | JStr s, JStr t => String.eqb s t
  | (JNum _ | JBool _), (JNum _ | JBool _) =>
      match as_int a, as_int b with
      | Ok m, Ok n => m =? n
      | _, _ => false
      end
  | _, _ => false
  end.

Definition hashable (v : json) : bool :=
  match v with
  | JArr _ | JObj _ => false
  | _ => true
  end.

End Json.


(** ** Configuration ([config.py]) *)

Module Config.

Record Settings : Type := {
  server_base_url : string;
  openapi_spec_url : string;
  api_key : option string;
  auth_token : option string;
  filesystem_storage : string;
  request_timeout : Z;
  excluded_endpoint_patterns : list string
}.

Definition default_settings : Settings := {|
  server_base_url := "https://pad.crc.nd.edu";
  openapi_spec_url := "https://pad.crc.nd.edu/api-ld/v3/openapi.json";
  api_key := None;
  auth_token := None;
  filesystem_storage := "./storage";
  request_timeout := 30;
  excluded_endpoint_patterns := ["stream"; "webpage"]
|}.

(** [if self.api_key:] holds for a string that is present and not empty. *)
Definition configured (o : option string) : option string :=
  match o with
  | Some s => if String.eqb s "" then None else Some s
  | None => None
  end.

(** [AuthConfig.get_headers] *)
Definition get_headers (cfg : Settings) : list (string * string) :=
  match configured (api_key cfg) with
  | Some k => [("X-API-Key", k)]
  | None => []
  end ++
  match configured (auth_token cfg) with
  | Some t => [("Authorization", "Bearer " +:+ t)]
  | None => []
  end.

End Config.

(** ** The endpoint filter ([api.py], [should_register_endpoint]) *)

Module Filter.
Import Py Json Config.

Definition is_binary_mime (mime_type : string) : bool :=
  startswith "image/" mime_type
  || startswith "application/octet-stream" mime_type
  || startswith "application/pdf" mime_type.

(** The inner loop over [content.keys()]: it leaves the function with
    [False] at the first binary type of a path without the marker. *)
Definition rejects_content (path : string) (mime_types : list string) : bool :=
  existsb (fun mime_type =>
             is_binary_mime mime_type && negb (contains "download-image" path))
          mime_types.

(** The loop over [responses.values()]. *)
Fixpoint scan_responses (path : string) (responses : list json) : res bool :=
  match responses with
  | [] => Ok true
  | response :: rest =>
      content ← dict_get response "content" (JObj []);
      mime_types ← dict_keys content;
      if rejects_content path mime_types then Ok false
      else scan_responses path rest
  end.

Definition matches_excluded (cfg : Settings) (path : string) : bool :=
  existsb (fun pattern => contains pattern (lower path))
          (excluded_endpoint_patterns cfg).

Definition should_register_endpoint
    (cfg : Settings) (path method : string) (operation : json) : res bool :=
  if matches_excluded cfg path then Ok false
  else
    responses ← dict_get operation "responses" (JObj []);
    values ← dict_values responses;
    scan_responses path values.

End Filter.

(** ** The HTTP executor ([api.py], [make_api_request]) *)

Module Http.
Import Py Json Config.

(** The call [requests.request(method=, url=, params=, json=, headers=,
    timeout=)]. *)
Record Request : Type := {
  req_method : string;
  req_url : string;
  req_params : option (gmap string json);
  req_json : option (gmap string json);
  req_headers : list (string * string);
  req_timeout : Z
}.

(** What the code reads of a [requests.Response]: [json_body] is the
    result of [response.json()], [None] when it raises [ValueError]. *)
Record Response : Type := {
  status_code : Z;
  reason : string;
  resp_url : string;
  content_type_header : option string;
  json_body : option json;
  text : string;
  content : string
}.

(** The ways [requests.request] ends: a response, or one of the exception
    classes that [make_api_request] tells apart. *)
Inductive Outcome : Type :=
  | Responded (r : Response)
  | Timeout
  | ConnectionError
  | RequestException (msg : string).

(** The environment of one call: the server, the random file name, and
    whether the storage directory exists and can be written. *)
Record World : Type := {
  http : Request -> Outcome;
  storage_exists : bool;
  uuid4 : string;
  disk_error : option string
}.

(** The effects of calls on the outside: requests sent, directories
    created, files written. *)
Record Effects : Type := {
  sent : list Request;
  made_dirs : list string;
  written : list (string * string)
}.

Definition no_effects : Effects :=
  {| sent := []; made_dirs := []; written := [] |}.

(** [Response.raise_for_status] of the requests library: an [HTTPError]
    (a [RequestException]) for the statuses 400 to 599, with this text. *)
Definition raise_for_status (r : Response) : option string :=
  if (400 <=? status_code r) && (status_code r <? 500)
  then Some (pretty (status_code r) +:+ " Client Error: " +:+ reason r
             +:+ " for url: " +:+ resp_url r)
  else if (500 <=? status_code r) && (status_code r <? 600)
  then Some (pretty (status_code r) +:+ " Server Error: " +:+ reason r
             +:+ " for url: " +:+ resp_url r)
  else None.

(** The failure envelope shared by the error branches. *)
Definition failure (error : string) (code : Z) (description : string) : json :=
  JObj [("success", JBool false); ("error", JStr error);
        ("status_code", JNum code); ("description", JStr description)].

(** [storage_path / filename] *)
Definition path_join (dir name : string) : string := dir +:+ "/" +:+ name.

(** The branch that stores an image or a binary body on disk. *)
Definition save_binary (cfg : Settings) (w : World) (content_type : string)
    (r : Response) (fx : Effects) : res json * Effects :=
  let storage_path := filesystem_storage cfg in
  let dirs := if storage_exists w then made_dirs fx
              else made_dirs fx ++ [storage_path] in
  match (if startswith "image/" content_type
         then match split_on "/" content_type !! 1%nat with
              | Some ext => Ok ext
              | None => Raise IndexError
              end
         else Ok "bin") with
  | Raise e => (Raise e, {| sent := sent fx; made_dirs := dirs; written := written fx |})
  | Ok ext =>
      let filename := uuid4 w +:+ "." +:+ ext in
      let full_path := path_join storage_path filename in
      match disk_error w with
      | Some msg =>
          (Raise (OSError msg),
           {| sent := sent fx; made_dirs := dirs; written := written fx |})
      | None =>
          (Ok (JObj [("success", JBool true); ("filename", JStr full_path);
                     ("path", JStr full_path);
                     ("content_type", JStr content_type);
                     ("description",
                      JStr ("The binary data has been saved to: " +:+ full_path))]),
           {| sent := sent fx; made_dirs := dirs;
              written := written fx ++ [(full_path, content r)] |})
      end
  end.

(** The part of [make_api_request] that follows a response. *)
Definition handle_response (cfg : Settings) (w : World) (url : string)
    (r : Response) (fx : Effects) : res json * Effects :=
  if status_code r =? 404 then
    (Ok (failure ("Resource not found: " +:+ url) 404
           "The requested resource could not be found on the server."), fx)
  else if status_code r =? 401 then
    (Ok (failure "Authentication required" 401
           "The request requires valid authentication credentials."), fx)
  else if status_code r =? 403 then
    (Ok (failure "Access forbidden" 403
           "You do not have permission to access this resource."), fx)
  else
    match raise_for_status r with
    | Some e => (Ok (failure e 500 ("Request failed: " +:+ e)), fx)
    | None =>
        let content_type := lower (default "" (content_type_header r)) in
        if startswith "image/" content_type
           || startswith "application/octet-stream" content_type
        then save_binary cfg w content_type r fx
        else
          match json_body r with
          | Some body => (Ok body, fx)
          | None =>
              (Ok (JObj [("success", JBool true); ("data", JStr (text r));
                         ("content_type", JStr content_type);
                         ("description", JStr "Response is not JSON data")]), fx)
          end
    end.

(** The arguments of the call of [requests.request]. *)
Definition build_request (cfg : Settings) (url method : string)
    (params json_data : option (gmap string json)) (timeout : Z) : Request :=
  let is_get := String.eqb (upper method) "GET" in
  {| req_method := upper method;
     req_url := url;
     req_params := if is_get then params else None;
     req_json := if negb is_get then json_data else None;
     req_headers := get_headers cfg;
     req_timeout := timeout |}.

Definition make_api_request (cfg : Settings) (w : World) (url method : string)
    (params json_data : option (gmap string json)) (timeout : option Z)
    (fx : Effects) : res json * Effects :=
  let timeout := default (request_timeout cfg) timeout in
  let request := build_request cfg url method params json_data timeout in
  let fx := {| sent := sent fx ++ [request]; made_dirs := made_dirs fx;
               written := written fx |} in
  match http w request with
  | Responded r => handle_response cfg w url r fx
  | Timeout =>
      (Ok (failure "Request timed out" 408
             ("The request to " +:+ url +:+ " timed out after "
              +:+ pretty timeout +:+ " seconds.")), fx)
  | ConnectionError =>
      (Ok (failure "Connection failed" 503
             ("Could not connect to " +:+ url
              +:+ ". The server may be down or unreachable.")), fx)
  | RequestException msg =>
      (Ok (failure msg 500 ("Request failed: " +:+ msg)), fx)
  end.

(** [fetch_openapi_spec]: the parsed document, or [None] when the request,
    the status check or the parsing raises a [RequestException]. *)
Definition fetch_openapi_spec (outcome : Outcome) : option json :=
  match outcome with
  | Responded r =>
      match raise_for_status r with
      | Some _ => None
      | None => json_body r
      end
  | _ => None
  end.

End Http.

(** ** Request closures and the registration pass ([api.py]) *)

Module Api.
Import Py Json Config Filter Naming Http.

(** What [mcp.add_tool] receives as [fn]: one of the static functions, or
    the closure over [path], [method] and [operation]. *)
Inductive ToolFn : Type :=
  | download_ontology_fn
  | dynamic_tool (path method : string) (operation : json).

(** One call [mcp.add_tool(fn=, name=, description=)]. *)
Record Tool : Type := {
  tool_fn : ToolFn;
  tool_name : string;
  tool_description : option string
}.

(** The counters of the pass, and under [mcp] the records that it hands
    to [mcp.add_tool], in the order of the calls.  The pass reads nothing
    back from the server: what the server holds after these calls is
    [FastMCP.serve] below, which is this list itself as long as the names
    are pairwise distinct. *)
Record Pass : Type := {
  mcp : list Tool;
  registered_count : nat;
  skipped_count : nat
}.

(** A loop whose body may raise: the state reached, and the exception
    that ended the loop early if there is one. *)
Fixpoint for_each {A S : Type} (body : A -> S -> S * option exc)
    (l : list A) (st : S) : S * option exc :=
  match l with
  | [] => (st, None)
  | a :: l' =>
      match body a st with
      | (st', None) => for_each body l' st'
      | (st', Some e) => (st', Some e)
      end
  end.

Definition allowed_methods : list string :=
  ["get"; "post"; "put"; "delete"; "patch"].

Definition is_allowed_method (method : string) : bool :=
  existsb (String.eqb (lower method)) allowed_methods.

Definition newline : string := String "010"%char EmptyString.

Section WithStr.

(** [str(v)], the builtin. *)
Variable py_str : json -> string.

(** One round of the loop over the declared parameters of the operation. *)
Definition substitute_param (param : json)
    (acc : gmap string json * string) : res (gmap string json * string) :=
  let '(params, final_url) := acc in
  location ← dict_get param "in" JNull;
  match location with
  | JStr "path" =>
      pname ← subscript param "name";
      present ← key_in pname params;
      if (present : bool) then
        match pname with
        | JStr name =>
            let value := py_str (default JNull (params !! name)) in
            Ok (delete name params,
                replace ("{" +:+ name +:+ "}") value final_url)
        | _ => Ok acc
        end
      else Ok acc
  | _ => Ok acc
  end.

Fixpoint substitute_params (declared : list json)
    (acc : gmap string json * string) : res (gmap string json * string) :=
  match declared with
  | [] => Ok acc
  | param :: rest =>
      acc' ← substitute_param param acc;
      substitute_params rest acc'
  end.

(** The body of the closure up to the call of the executor: the remaining
    parameters and the final URL. *)
Definition prepare_call (cfg : Settings) (path : string) (operation : json)
    (parameters : option (gmap string json))
    : res (gmap string json * string) :=
  let params := default ∅ parameters in
  let final_url := server_base_url cfg +:+ path in
  declared_value ← dict_get operation "parameters" (JArr []);
  declared ← py_iter declared_value;
  substitute_params declared (params, final_url).

(** [make_dynamic_tool_func(path, method, operation)(parameters)] *)
Definition dynamic_tool_func (cfg : Settings) (w : World)
    (path method : string) (operation : json)
    (parameters : option (gmap string json)) (fx : Effects)
    : res json * Effects :=
  match prepare_call cfg path operation parameters with
  | Raise e => (Raise e, fx)
  | Ok (params, final_url) =>
      let method_upper := upper method in
      let is_get := String.eqb method_upper "GET" in
      make_api_request cfg w final_url method_upper
        (if is_get then Some params else None)
        (if negb is_get then Some params else None)
        None fx
  end.

(** The docstring built from the summary and the description. *)
Definition make_docstring (path method : string) (operation : json)
    : res string :=
  summary ← dict_get operation "summary" (JStr "");
  description ← dict_get operation "description" (JStr "");
  mret (py_str summary +:+ newline +:+ newline
        +:+ py_str description +:+ newline +:+ newline
        +:+ "(This tool calls: " +:+ upper method +:+ " " +:+ path +:+ ")").

(** The body of the inner loop of the pass, for one entry
    [(method, operation)] of a path item: an accepted operation is one
    more call of [mcp.add_tool], whatever the names of the calls before. *)
Definition register_operation (cfg : Settings) (path : string)
    (entry : string * json) (st : Pass) : Pass * option exc :=
  let '(method, operation) := entry in
  if negb (is_allowed_method method) then (st, None)
  else
    match should_register_endpoint cfg path method operation with
    | Raise e => (st, Some e)
    | Ok false =>
        ({| mcp := mcp st; registered_count := registered_count st;
            skipped_count := S (skipped_count st) |}, None)
    | Ok true =>
        let tool_name := normalize_tool_name method path in
        match make_docstring path method operation with
        | Raise e => (st, Some e)
        | Ok docstring =>
            ({| mcp := mcp st ++ [{| tool_fn := dynamic_tool path method operation;
                                     tool_name := tool_name;
                                     tool_description := Some docstring |}];
                registered_count := S (registered_count st);
                skipped_count := skipped_count st |}, None)
        end
    end.

(** The body of the outer loop, for one entry [(path, path_item)]. *)
Definition register_path_item (cfg : Settings) (entry : string * json)
    (st : Pass) : Pass * option exc :=
  let '(path, path_item) := entry in
  if negb (truthy path_item) then (st, None)
  else
    match dict_items path_item with
    | Raise e => (st, Some e)
    | Ok operations => for_each (register_operation cfg path) operations st
    end.

Definition register_openapi_endpoints_as_tools (cfg : Settings)
    (registry : list Tool) (spec : json) : Pass * option exc :=
  let st := {| mcp := registry; registered_count := 0; skipped_count := 0 |} in
  match (paths ← dict_get spec "paths" (JObj []); dict_items paths) with
  | Raise e => (st, Some e)
  | Ok items => for_each (register_path_item cfg) items st
  end.

(** [register_api_tools]: the calls of [mcp.add_tool] on the server, those
    made before under [registry] and then its own, and the exception that
    leaves the function if there is one. *)
Definition register_api_tools (cfg : Settings) (fetch : Outcome)
    (registry : list Tool) : list Tool * option exc :=
  let registry :=
    registry ++ [{| tool_fn := download_ontology_fn;
                    tool_name := "download_ontology";
                    tool_description := None |}] in
  match fetch_openapi_spec fetch with
  | Some spec =>
      if truthy spec then
        let '(st, e) := register_openapi_endpoints_as_tools cfg registry spec in
        (mcp st, e)
      else (registry, None)
  | None => (registry, None)
  end.

End WithStr.

End Api.

(** ** The tool registry of the server ([mcp.server.fastmcp]) *)

Module FastMCP.
Import Api.

(** The tool manager of the library keeps the tools in a dictionary under
    their names; [tools] lists it in the order of insertion, and
    [warnings] is what it logged as "Tool already exists: <name>". *)
Record Server : Type := {
  tools : list Tool;
  warnings : list string
}.

(** [FastMCP(name)]: a server without tools. *)
Definition fresh : Server := {| tools := []; warnings := [] |}.

Definition has_tool (name : string) (s : Server) : bool :=
  existsb (String.eqb name) (map tool_name (tools s)).

(** [mcp.add_tool(fn, name=, description=)]: under a name that is taken
    the library keeps the tool it has, logs the warning, and does not
    raise; under a new name it stores the tool. *)
Definition add_tool (t : Tool) (s : Server) : Server :=
  if has_tool (tool_name t) s
  then {| tools := tools s; warnings := warnings s ++ [tool_name t] |}
  else {| tools := tools s ++ [t]; warnings := warnings s |}.

(** The server after a sequence of calls of [add_tool]. *)
Definition serve (calls : list Tool) (s : Server) : Server :=
  fold_left (fun s t => add_tool t s) calls s.

Section Calls.

Variable py_str : Json.json -> string.

(** The calls that [register_openapi_endpoints_as_tools(mcp, spec)] makes
    on the server, in order: also when the pass ends with an exception,
    the calls made before it stay made. *)
Definition pass_calls (cfg : Config.Settings) (spec : Json.json) : list Tool :=
  mcp (fst (register_openapi_endpoints_as_tools py_str cfg [] spec)).

(** The server after the pass. *)
Definition after_pass (cfg : Config.Settings) (spec : Json.json) (s : Server)
    : Server :=
  serve (pass_calls cfg spec) s.

End Calls.

End FastMCP.

(** ** The image tools ([analysis.py]) *)

Module Analysis.
Import Py Json.

Definition Pixel : Type := (Z * Z * Z)%type.

(** An opened image in RGB mode: [img.size] and the rows of [np.array(img)]. *)
Record Image : Type := {
  width : Z;
  height : Z;
  rows : list (list Pixel)
}.

(** The array has [height] rows of [width] pixels. *)
Definition well_formed (img : Image) : Prop :=
  0 <= width img /\ 0 <= height img
  /\ length (rows img) = Z.to_nat (height img)
  /\ Forall (fun row => length row = Z.to_nat (width img)) (rows img).

(** The file system as the tools see it: [os.path.exists], and
    [PILImage.open] followed by the conversion to RGB. *)
Record Env : Type := {
  path_exists : string -> bool;
  open_rgb : string -> res Image
}.

(** [a[lo:hi]] for bounds that are not negative (the code passes no
    others to a slice). *)
Definition slice {A} (lo hi : Z) (l : list A) : list A :=
  take (Z.to_nat hi - Z.to_nat lo) (drop (Z.to_nat lo) l).

(** [img_array[y1:y2, x1:x2]], also the pixels of [img.crop((x1, y1, x2, y2))]
    for a box inside the image. *)
Definition extract (img : Image) (x1 y1 x2 y2 : Z) : list (list Pixel) :=
  map (slice x1 x2) (slice y1 y2 (rows img)).

Definition channel_of (idx : nat) (p : Pixel) : Z :=
  match idx, p with
  | 0%nat, (r, _, _) => r
  | 1%nat, (_, g, _) => g
  | _, (_, _, b) => b
  end.

(** [region[:, :, idx]], flattened as the statistics read it. *)
Definition channel_data (idx : nat) (region : list (list Pixel)) : list Z :=
  concat (map (map (channel_of idx)) region).

(** [a or b or ...] over tests that may raise: the first [True] ends it. *)
Fixpoint any_lazy (tests : list (res bool)) : res bool :=
  match tests with
  | [] => Ok false
  | t :: tests' =>
      b ← t;
      if (b : bool) then Ok true else any_lazy tests'
  end.

Definition lt (a b : json) : res bool :=
  m ← as_int a; n ← as_int b; mret (m <? n).
Definition gt (a b : json) : res bool :=
  m ← as_int a; n ← as_int b; mret (n <? m).
Definition ge (a b : json) : res bool :=
  m ← as_int a; n ← as_int b; mret (n <=? m).

Definition bbox_keys : list string := ["x1"; "y1"; "x2"; "y2"].

(** The test of [compute_average_rgb] on the coordinates. *)
Definition invalid_coordinates (img : Image) (x1 y1 x2 y2 : json) : res bool :=
  any_lazy [lt x1 (JNum 0); lt y1 (JNum 0);
            gt x2 (JNum (width img)); gt y2 (JNum (height img));
            ge x1 x2; ge y1 y2].

(** The adjustment of [analyze_image_regions] to the coordinates. *)
Definition clamp_bbox (w h x1 y1 x2 y2 : Z) : Z * Z * Z * Z :=
  let x1 := Z.max 0 (Z.min x1 (w - 1)) in
  let y1 := Z.max 0 (Z.min y1 (h - 1)) in
  let x2 := Z.max (x1 + 1) (Z.min x2 w) in
  let y2 := Z.max (y1 + 1) (Z.min y2 h) in
  (x1, y1, x2, y2).

(** The result dictionary shared by the tools. *)
Record Envelope (D : Type) : Type := {
  success : bool;
  data : D;
  error : string;
  description : string
}.
Arguments success {D} _.
Arguments data {D} _.
Arguments error {D} _.
Arguments description {D} _.

Definition valid_metrics : list string :=
  ["avg"; "std"; "min"; "max"; "median"; "mode"].

Section Tools.

(** The floating-point numbers of the results, and the statistics of
    numpy by the name of the metric: [np.mean] for ["avg"], [np.std],
    [np.min], [np.max], [np.median], and the most frequent value for
    ["mode"]. *)
Variable float : Type.
Variable np_stat : string -> list Z -> res float.
Variable py_str : json -> string.

(** The payload of [compute_average_rgb]; [None] stands for [{}]. *)
Record AvgData : Type := {
  avg_r : float;
  avg_g : float;
  avg_b : float;
  region_size : Z * Z
}.

Definition avg_failure (err descr : string) : Envelope (option AvgData) :=
  {| success := false; data := None; error := err; description := descr |}.

(** The body of the [try] of [compute_average_rgb]. *)
Definition compute_average_rgb_body (env : Env) (bbox : json)
    (image_path : string) : res (Envelope (option AvgData)) :=
  if negb (path_exists env image_path) then
    Ok (avg_failure ("Image path does not exist: " +:+ image_path)
          "Failed to locate the specified image file.")
  else
    has_keys ← (if negb (truthy bbox) then Ok false else all_in bbox_keys bbox);
    if negb has_keys then
      Ok (avg_failure "Bounding box must contain 'x1', 'y1', 'x2', and 'y2' keys."
            "Invalid bounding box specification.")
    else
      match open_rgb env image_path with
      | Raise e =>
          Ok (avg_failure ("Failed to open image: " +:+ exc_str e)
                "Could not open or process the image file.")
      | Ok img =>
          x1 ← subscript bbox "x1";
          y1 ← subscript bbox "y1";
          x2 ← subscript bbox "x2";
          y2 ← subscript bbox "y2";
          invalid ← invalid_coordinates img x1 y1 x2 y2;
          if (invalid : bool) then
            Ok (avg_failure
                  ("Invalid bounding box coordinates: " +:+ py_str bbox
                   +:+ " for image size " +:+ pretty (width img) +:+ "x"
                   +:+ pretty (height img))
                  "Bounding box coordinates are outside image dimensions or invalid.")
          else
            x1 ← as_int x1; y1 ← as_int y1; x2 ← as_int x2; y2 ← as_int y2;
            let region := extract img x1 y1 x2 y2 in
            r ← np_stat "avg" (channel_data 0 region);
            g ← np_stat "avg" (channel_data 1 region);
            b ← np_stat "avg" (channel_data 2 region);
            mret {| success := true;
                    data := Some {| avg_r := r; avg_g := g; avg_b := b;
                                    region_size := (x2 - x1, y2 - y1) |};
                    error := "";
                    description :=
                      "Computed average RGB values for the specified bounding box ("
                      +:+ pretty (x2 - x1) +:+ "x" +:+ pretty (y2 - y1)
                      +:+ " pixels)." |}
      end.

Definition compute_average_rgb (env : Env) (bbox : json)
    (image_path : string) : Envelope (option AvgData) :=
  match compute_average_rgb_body env bbox image_path with
  | Ok result => result
  | Raise e =>
      avg_failure (exc_str e)
        "Failed to compute average RGB values due to an error."
  end.

(** The entry of one region in the results of [analyze_image_regions]:
    the error entry with ["valid": False], or the statistics with
    ["valid": True].  (The entry for a slice that raises does not occur:
    a slice with integer bounds does not raise.) *)
Inductive RegionResult : Type :=
  | RegionInvalid (err : string)
  | RegionStats (bbox : Z * Z * Z * Z) (size : Z * Z)
      (channels : list (string * list (string * float))).

(** [results[name] = entry] *)
Fixpoint set_entry (name : json) (entry : RegionResult)
    (results : list (json * RegionResult)) : list (json * RegionResult) :=
  match results with
  | [] => [(name, entry)]
  | (k, v) :: results' =>
      if key_eqb k name then (k, entry) :: results'
      else (k, v) :: set_entry name entry results'
  end.

Definition set_item (name : json) (entry : RegionResult)
    (results : list (json * RegionResult)) : res (list (json * RegionResult)) :=
  if hashable name then Ok (set_entry name entry results) else Raise TypeError.

(** The metrics of one channel, in the order of the tests of the code. *)
Fixpoint channel_results (wanted : list string) (metrics : list json)
    (values : list Z) : res (list (string * float)) :=
  match wanted with
  | [] => Ok []
  | m :: wanted' =>
      if existsb (is_str m) metrics then
        v ← np_stat m values;
        rest ← channel_results wanted' metrics values;
        mret ((m, v) :: rest)
      else channel_results wanted' metrics values
  end.

Definition all_channels (metrics : list json) (region : list (list Pixel))
    : res (list (string * list (string * float))) :=
  r ← channel_results valid_metrics metrics (channel_data 0 region);
  g ← channel_results valid_metrics metrics (channel_data 1 region);
  b ← channel_results valid_metrics metrics (channel_data 2 region);
  mret [("r", r); ("g", g); ("b", b)].

(** One round of the loop over [enumerate(regions)]. *)
Definition analyze_region (img : Image) (i : nat) (region : json)
    (results : list (json * RegionResult)) : res (list (json * RegionResult)) :=
  name ← dict_get region "name" (JStr ("region_" +:+ pretty (Z.of_nat i + 1)));
  bbox ← dict_get region "bbox" (JObj []);
  requested ← dict_get region "metrics" (JArr [JStr "avg"]);
  requested ← py_iter requested;
  let metrics :=
    filter (fun m => existsb (fun v => is_str v m) valid_metrics) requested in
  has_keys ← all_in bbox_keys bbox;
  if negb has_keys then
    set_item name (RegionInvalid "Invalid bounding box specification") results
  else
    x1 ← subscript bbox "x1";
    y1 ← subscript bbox "y1";
    x2 ← subscript bbox "x2";
    y2 ← subscript bbox "y2";
    x1 ← as_int x1; y1 ← as_int y1; x2 ← as_int x2; y2 ← as_int y2;
    let '(x1, y1, x2, y2) := clamp_bbox (width img) (height img) x1 y1 x2 y2 in
    let region_array := extract img x1 y1 x2 y2 in
    results ← set_item name (RegionStats (x1, y1, x2, y2) (x2 - x1, y2 - y1) []) results;
    channels ← all_channels metrics region_array;
    mret (set_entry name
            (RegionStats (x1, y1, x2, y2) (x2 - x1, y2 - y1) channels) results).

Fixpoint analyze_regions_from (img : Image) (i : nat) (regions : list json)
    (results : list (json * RegionResult)) : res (list (json * RegionResult)) :=
  match regions with
  | [] => Ok results
  | region :: regions' =>
      results' ← analyze_region img i region results;
      analyze_regions_from img (S i) regions' results'
  end.

Definition regions_failure (err descr : string)
    : Envelope (list (json * RegionResult)) :=
  {| success := false; data := []; error := err; description := descr |}.

(** The body of the [try] of [analyze_image_regions]. *)
Definition analyze_image_regions_body (env : Env) (image_path : string)
    (regions : json) : res (Envelope (list (json * RegionResult))) :=
  if negb (path_exists env image_path) then
    Ok (regions_failure ("Image path does not exist: " +:+ image_path)
          "Failed to locate the specified image file.")
  else
    match open_rgb env image_path with
    | Raise e =>
        Ok (regions_failure ("Failed to open image: " +:+ exc_str e)
              "Could not open or process the image file.")
    | Ok img =>
        regions ← py_iter regions;
        results ← analyze_regions_from img 0 regions [];
        mret {| success := true; data := results; error := "";
                description := "Analyzed " +:+ pretty (Z.of_nat (length results))
                               +:+ " regions in the image." |}
    end.

Definition analyze_image_regions (env : Env) (image_path : string)
    (regions : json) : Envelope (list (json * RegionResult)) :=
  match analyze_image_regions_body env image_path regions with
  | Ok result => result
  | Raise e =>
      regions_failure (exc_str e)
        "Failed to analyze image regions due to an error."
  end.

End Tools.

End Analysis.

(** ** The image loader ([files.py], [load_image]) *)

Module Files.
Import Py Json.

Section Load.

(** A picture of the imaging library, its size, [img.resize], and
    [img.save] into a buffer; [scaled_height w h0 w0] is
    [int(w * (h0 / w0))], whose floating-point arithmetic is not modelled. *)
Variable picture : Type.
Variable pic_width pic_height : picture -> Z.
Variable resize : picture -> Z -> Z -> res picture.
Variable scaled_height : Z -> Z -> Z -> res Z.
Variable encode : picture -> res string.

Record Env : Type := {
  path_exists : string -> bool;
  open_image : string -> res picture
}.

(** The body of the [try] of [load_image]. *)
Definition load_image_body (env : Env) (path : string)
    (resize_width : option Z) (maintain_aspect_ratio : bool) : res string :=
  if negb (path_exists env path) then
    Raise (ValueError ("Image file not found: " +:+ path))
  else
    img ← open_image env path;
    img ← match resize_width with
          | Some w =>
              if 0 <? w then
                resize_height ←
                  (if maintain_aspect_ratio
                   then scaled_height w (pic_height img) (pic_width img)
                   else Ok (pic_height img));
                resize img w resize_height
              else Ok img
          | None => Ok img
          end;
    encode img.

(** [load_image]: the handler of the [try] raises again. *)
Definition load_image (env : Env) (path : string)
    (resize_width : option Z) (maintain_aspect_ratio : bool) : res string :=
  match load_image_body env path resize_width maintain_aspect_ratio with
  | Ok image => Ok image
  | Raise e =>
      Raise (ValueError ("Error loading or resizing image: " +:+ exc_str e))
  end.

End Load.

End Files.

(** ** The data model of the specification, as shapes of the document *)

Module DataModel.
Import Py Json Config Filter Naming Http Api.

(** The content types that a response declares. *)
Definition content_types (response : json) : list string :=
  match response with
  | JObj fields =>
      match assoc "content" fields with
      | Some (JObj content) => map fst content
      | _ => []
      end
  | _ => []
  end.

(** The shape of an operation of the data model: an object whose
    responses, when present, are an object of response objects, each with
    an object as content when it has one. *)
Definition well_formed_response (response : json) : bool :=
  match response with
  | JObj fields =>
      match assoc "content" fields with
      | None | Some (JObj _) => true
      | Some _ => false
      end
  | _ => false
  end.

Definition responses_of (operation : json) : list json :=
  match operation with
  | JObj fields =>
      match assoc "responses" fields with
      | Some (JObj responses) => map snd responses
      | _ => []
      end
  | _ => []
  end.

Definition well_formed_operation (operation : json) : bool :=
  match operation with
  | JObj fields =>
      match assoc "responses" fields with
      | None => true
      | Some (JObj responses) => forallb well_formed_response (map snd responses)
      | Some _ => false
      end
  | _ => false
  end.

(** Some response of the operation declares a binary content type. *)
Definition declares_binary (operation : json) : bool :=
  existsb (fun response => existsb is_binary_mime (content_types response))
          (responses_of operation).

(** A path item is skipped when it is empty; otherwise it is an object
    whose entries under the five methods are operations. *)
Definition well_formed_entry (entry : string * json) : bool :=
  negb (is_allowed_method (fst entry)) || well_formed_operation (snd entry).

Definition well_formed_path_item (path_item : json) : bool :=
  match path_item with
  | JObj entries => forallb well_formed_entry entries
  | _ => negb (truthy path_item)
  end.

(** A document: an object whose ["paths"], when present, is an object of
    path items. *)
Definition well_formed_document (spec : json) : bool :=
  match spec with
  | JObj fields =>
      match assoc "paths" fields with
      | None => true
      | Some (JObj items) => forallb (fun item => well_formed_path_item (snd item)) items
      | Some _ => false
      end
  | _ => false
  end.

(** The operations of the document under the five methods, in document
    order, as triples [(path, method, operation)]. *)
Definition entries_of (path_item : json) : list (string * json) :=
  match path_item with
  | JObj entries => entries
  | _ => []
  end.

Definition path_items_of (spec : json) : list (string * json) :=
  match spec with
  | JObj fields =>
      match assoc "paths" fields with
      | Some (JObj items) => items
      | _ => []
      end
  | _ => []
  end.

Definition operations_of (spec : json) : list (string * string * json) :=
  flat_map (fun item =>
              map (fun entry => (fst item, fst entry, snd entry))
                  (filter (fun entry => is_allowed_method (fst entry) = true)
                          (entries_of (snd item))))
           (path_items_of spec).

(** The filter accepts the operation. *)
Definition accepted (cfg : Settings) (op : string * string * json) : bool :=
  match op with
  | (path, method, operation) =>
      match should_register_endpoint cfg path method operation with
      | Ok true => true
      | _ => false
      end
  end.

Definition eligible (cfg : Settings) (spec : json) : list (string * string * json) :=
  filter (fun op => accepted cfg op = true) (operations_of spec).

Definition rejected (cfg : Settings) (spec : json) : list (string * string * json) :=
  filter (fun op => accepted cfg op = false) (operations_of spec).

(** The text of the docstring of an operation. *)
Definition docstring (py_str : json -> string) (op : string * string * json) : string :=
  match op with
  | (path, method, operation) =>
      let field k := match operation with
                     | JObj fields => default (JStr "") (assoc k fields)
                     | _ => JStr ""
                     end in
      py_str (field "summary") +:+ newline +:+ newline
      +:+ py_str (field "description") +:+ newline +:+ newline
      +:+ "(This tool calls: " +:+ upper method +:+ " " +:+ path +:+ ")"
  end.

(** The record registered for an operation. *)
Definition tool_of (py_str : json -> string) (op : string * string * json) : Tool :=
  match op with
  | (path, method, operation) =>
      {| tool_fn := dynamic_tool path method operation;
         tool_name := normalize_tool_name method path;
         tool_description := Some (docstring py_str op) |}
  end.

(** [str(v)] on the scalars, for the examples; the text of a list or of a
    dict is not modelled. *)
Definition scalar_str (v : json) : string :=
  match v with
  | JStr s => s
  | JNum n => pretty n
  | JBool true => "True"
  | JBool false => "False"
  | JNull => "None"
  | _ => ""
  end.

(** Documents and operations of the examples. *)
Definition image_operation : json :=
  JObj [("summary", JStr "Card image");
        ("responses",
         JObj [("200", JObj [("content", JObj [("image/png", JObj [])])])])].

Definition colliding_document : json :=
  JObj [("paths",
         JObj [("/a-b", JObj [("get", JObj [])]);
               ("/a_b", JObj [("get", JObj [])])])].

Definition ok_response (body : json) : Response :=
  {| status_code := 200; reason := "OK"; resp_url := "";
     content_type_header := Some "application/json";
     json_body := Some body; text := ""; content := "" |}.

(** A parameter descriptor: an object; when its location is ["path"] it
    has a name, which is a string. *)
Definition well_formed_parameter (param : json) : bool :=
  match param with
  | JObj fields =>
      match assoc "in" fields with
      | Some (JStr "path") =>
          match assoc "name" fields with
          | Some (JStr _) => true
          | _ => false
          end
      | _ => true
      end
  | _ => false
  end.

(** The operation is an object whose ["parameters"], when present, is a
    list of parameter descriptors. *)
Definition well_formed_parameters (operation : json) : bool :=
  match operation with
  | JObj fields =>
      match assoc "parameters" fields with
      | None => true
      | Some (JArr declared) => forallb well_formed_parameter declared
      | Some _ => false
      end
  | _ => false
  end.

(** The names of the parameters declared with the location ["path"], in
    the order of the declaration. *)
Definition path_name (param : json) : list string :=
  match param with
  | JObj fields =>
      match assoc "in" fields, assoc "name" fields with
      | Some (JStr "path"), Some (JStr name) => [name]
      | _, _ => []
      end
  | _ => []
  end.

Definition path_names (operation : json) : list string :=
  match operation with
  | JObj fields =>
      match assoc "parameters" fields with
      | Some (JArr declared) => flat_map path_name declared
      | _ => []
      end
  | _ => []
  end.

(** The URL template after the substitution of the path parameters that
    the mapping supplies, taken in the order of their declaration. *)
Fixpoint substituted_url (py_str : json -> string) (names : list string)
    (params : gmap string json) (url : string) : string :=
  match names with
  | [] => url
  | name :: names' =>
      match params !! name with
      | Some value =>
          substituted_url py_str names' (delete name params)
            (replace ("{" +:+ name +:+ "}") (py_str value) url)
      | None => substituted_url py_str names' params url
      end
  end.

(** The mapping without the given names. *)
Definition without (names : list string) (params : gmap string json)
    : gmap string json :=
  fold_left (fun m name => delete name m) names params.

(** The operation of the example of the specification: a path parameter
    [id] and a query parameter [verbose]. *)
Definition card_operation : json :=
  JObj [("parameters",
         JArr [JObj [("name", JStr "id"); ("in", JStr "path")];
               JObj [("name", JStr "verbose"); ("in", JStr "query")]])].

Definition card_parameters : gmap string json :=
  <["id" := JNum 7]> (<["verbose" := JBool true]> ∅).

(** A server that answers every request with the same outcome. *)
Definition constant_world (outcome : Outcome) : World :=
  {| http := fun _ => outcome; storage_exists := true;
     uuid4 := "00000000-0000-4000-8000-000000000000"; disk_error := None |}.

(** The field [k] of a result, when the result is a dictionary. *)
Definition get_field (k : string) (v : json) : option json :=
  match v with
  | JObj fields => assoc k fields
  | _ => None
  end.

(** The failures of a request that the specification names. *)
Inductive Failure : Type :=
  | NotFound
  | AuthenticationRequired
  | AccessForbidden
  | HttpError (text : string)
  | TimedOut
  | ConnectionFailed.

Definition classify (outcome : Outcome) : option Failure :=
  match outcome with
  | Responded r =>
      if status_code r =? 404 then Some NotFound
      else if status_code r =? 401 then Some AuthenticationRequired
      else if status_code r =? 403 then Some AccessForbidden
      else if (400 <=? status_code r) && (status_code r <? 600)
      then HttpError <$> raise_for_status r
      else None
  | Timeout => Some TimedOut
  | ConnectionError => Some ConnectionFailed
  | RequestException msg => Some (HttpError msg)
  end.

Definition expected_status (f : Failure) : Z :=
  match f with
  | NotFound => 404
  | AuthenticationRequired => 401
  | AccessForbidden => 403
  | HttpError _ => 500
  | TimedOut => 408
  | ConnectionFailed => 503
  end.

(** A response with the status 304 and an empty body, and a response
    with the status 200 whose body is the JSON array [[]]. *)
Definition not_modified : Response :=
  {| status_code := 304; reason := "Not Modified"; resp_url := "";
     content_type_header := None; json_body := None; text := "";
     content := "" |}.

(** A response that the executor answers with its body: the status is
    none of 404, 401 and 403 and none that [raise_for_status] refuses,
    and the content type is neither an image nor an octet stream. *)
Definition plain_response (r : Response) : bool :=
  negb (status_code r =? 404) && negb (status_code r =? 401)
  && negb (status_code r =? 403)
  && match raise_for_status r with Some _ => false | None => true end
  && negb (startswith "image/" (lower (default "" (content_type_header r)))
           || startswith "application/octet-stream"
                (lower (default "" (content_type_header r)))).

(** The shape of an envelope built by the executor: a boolean [success]
    and a [description]; a failure carries [error] and [status_code] and
    no payload; a success carries no [error], and its payload is under
    [data] (a body that is not JSON) or under [path] (a stored file). *)
Definition executor_envelope (v : json) : Prop :=
  exists b d,
    get_field "success" v = Some (JBool b)
    /\ get_field "description" v = Some (JStr d)
    /\ if b
       then get_field "error" v = None
            /\ (is_Some (get_field "data" v) \/ is_Some (get_field "path" v))
       else is_Some (get_field "error" v)
            /\ is_Some (get_field "status_code" v)
            /\ get_field "data" v = None.

(** An image of two rows of two pixels, a file system that holds it
    under every path, and a stand-in for the statistics of numpy (the sum
    of the values, whatever the metric). *)
Definition tiny_image : Analysis.Image :=
  {| Analysis.width := 2; Analysis.height := 2;
     Analysis.rows := [[(1, 2, 3); (4, 5, 6)]; [(7, 8, 9); (10, 11, 12)]] |}.

Definition tiny_env : Analysis.Env :=
  {| Analysis.path_exists := fun _ => true;
     Analysis.open_rgb := fun _ => Ok tiny_image |}.

Definition sum_stat (metric : string) (values : list Z) : res Z :=
  Ok (fold_right Z.add 0 values).

(** A region with an inverted bounding box, and one whose bounding box
    lacks [y2]. *)
Definition inverted_region : json :=
  JObj [("name", JStr "spot");
        ("bbox", JObj [("x1", JNum 1); ("y1", JNum 1);
                       ("x2", JNum 0); ("y2", JNum 0)])].

Definition incomplete_region : json :=
  JObj [("name", JStr "spot");
        ("bbox", JObj [("x1", JNum 0); ("y1", JNum 0); ("x2", JNum 1)])].



Definition png_response : Response :=
  {| status_code := 200; reason := "OK"; resp_url := "";
     content_type_header := Some "image/png"; json_body := None;
     text := ""; content := "PNG" |}.


(** An image of one colour, as in the test of the repository. *)
Definition uniform_image (w h : nat) (p : Analysis.Pixel) : Analysis.Image :=
  {| Analysis.width := Z.of_nat w; Analysis.height := Z.of_nat h;
     Analysis.rows := repeat (repeat p w) h |}.

Definition uniform_env : Analysis.Env :=
  {| Analysis.path_exists := fun _ => true;
     Analysis.open_rgb := fun _ => Ok (uniform_image 100 100 (10, 20, 30)) |}.

(** The mean of the values, rounded down. *)
Definition floor_mean (metric : string) (values : list Z) : res Z :=
  Ok (fold_right Z.add 0 values / Z.of_nat (length values)).

End DataModel.

(** ** The image writer ([files.py], [save_image]) *)

Module Save.
Import Py Json Config Http.

(** [os.path.basename(p)] on a POSIX system: what follows the last
    slash. *)
Definition basename (p : string) : string :=
  List.last (split_on "/" p) EmptyString.

(** [str(Path(dir) / name)]: joining an empty name gives the directory. *)
Definition path_under (dir name : string) : string :=
  if String.eqb name EmptyString then dir else dir +:+ "/" +:+ name.

Section Writer.

(** A picture of the imaging library. *)
Variable picture : Type.

(** The environment of one call: whether the storage directory exists
    and can be created, the random name, [PILImage.open] on the bytes, and
    [img.save(full_path, format=format)].  Of the last the code shows
    nothing but the call, so the environment decides all of it for the
    picture, the path and the format: the exception it raises, if any,
    and what the file under the path holds afterwards when the call
    touched it, whether or not it raised. *)
Record World : Type := {
  storage_exists : bool;
  mkdir_error : option string;
  uuid4 : string;
  decode : string -> res picture;
  save : picture -> string -> string -> option exc * option string
}.

Definition save_failure (err descr : string) : json :=
  JObj [("success", JBool false); ("error", JStr err);
        ("description", JStr descr)].

(** The inner [try] of [save_image]: opening the bytes as an image and
    saving it under the full path. *)
Definition write_image (w : World) (image_data full_path format : string)
    (fx : Effects) : res unit * Effects :=
  match decode w image_data with
  | Raise e => (Raise e, fx)
  | Ok img =>
      let '(raised, held) := save w img full_path format in
      let fx := match held with
                | Some bytes =>
                    {| sent := sent fx; made_dirs := made_dirs fx;
                       written := written fx ++ [(full_path, bytes)] |}
                | None => fx
                end in
      match raised with
      | Some e => (Raise e, fx)
      | None => (Ok tt, fx)
      end
  end.

Definition save_image (cfg : Settings) (w : World) (image_data : string)
    (filename : option string) (format : string) (fx : Effects)
    : json * Effects :=
  if String.eqb image_data EmptyString then
    (save_failure "No image data provided" "Image data is empty or None", fx)
  else
    let storage_path := filesystem_storage cfg in
    match (if storage_exists w then None else Some (mkdir_error w)) with
    | Some (Some msg) =>
        (save_failure msg "Failed to save image due to an error", fx)
    | made =>
        let fx := match made with
                  | Some None =>
                      {| sent := sent fx;
                         made_dirs := made_dirs fx ++ [storage_path];
                         written := written fx |}
                  | _ => fx
                  end in
        let filename :=
          match filename with
          | Some name =>
              if String.eqb name EmptyString
              then uuid4 w +:+ "." +:+ lower format
              else name
          | None => uuid4 w +:+ "." +:+ lower format
          end in
        let safe_filename := basename filename in
        let full_path := path_under storage_path safe_filename in
        match write_image w image_data full_path format fx with
        | (Raise e, fx) =>
            (save_failure ("Invalid image data: " +:+ exc_str e)
               "Could not process or save the provided image data", fx)
        | (Ok _, fx) =>
            (JObj [("success", JBool true);
                   ("filename", JStr safe_filename);
                   ("path", JStr full_path);
                   ("description",
                    JStr ("Image successfully saved to " +:+ full_path))], fx)
        end
    end.

End Writer.

Arguments storage_exists {picture} _.
Arguments mkdir_error {picture} _.
Arguments uuid4 {picture} _.
Arguments decode {picture} _ _.
Arguments save {picture} _ _ _ _.

End Save.

(** ** The ontology tool ([api.py], [download_ontology]) *)

Module Ontology.
Import Py Json Config Http.

(** How the request and the check of its status end: the text of the
    body, an exception of the class [httpx.HTTPError] (a status that
    [raise_for_status] refuses, a timeout, a failed connection), or
    another exception. *)
Inductive Download : Type :=
  | Fetched (text : string)
  | HttpFailure (msg : string)
  | OtherFailure (e : exc).

Record World : Type := {
  get : string -> list (string * string) -> Z -> Download;
  storage_exists : bool;
  mkdir_error : option string;
  write_error : option string
}.



End Ontology.

(** ** Shapes used by the further properties *)

Module Shapes.
Import Py Json Config Filter Naming Http Api DataModel.

(** A record that the pass may add: the closure of an operation under
    one of the five methods that the filter accepts, under the identifier
    derived from its method and path. *)
Definition registered_by (cfg : Settings) (t : Tool) : Prop :=
  exists path method operation,
    tool_fn t = dynamic_tool path method operation
    /\ is_allowed_method method = true
    /\ should_register_endpoint cfg path method operation = Ok true
    /\ tool_name t = normalize_tool_name method path.

(** The state of the pass grew from [st] to [st']: records were added
    at the end of the registry, as many as the counter rose. *)
Definition grows (cfg : Settings) (st st' : Pass) : Prop :=
  exists added,
    mcp st' = mcp st ++ added
    /\ registered_count st' = (registered_count st + length added)%nat
    /\ Forall (registered_by cfg) added.

(** The record of the static tool of [register_api_tools]. *)
Definition download_ontology_tool : Tool :=
  {| tool_fn := download_ontology_fn;
     tool_name := "download_ontology";
     tool_description := None |}.

(** A writer whose disk and imaging library accept everything. *)
Definition plain_writer : Save.World unit :=
  {| Save.storage_exists := true; Save.mkdir_error := None;
     Save.uuid4 := "00000000-0000-4000-8000-000000000000";
     Save.decode := fun _ => Ok tt;
     Save.save := fun _ _ _ => (None, Some "PNG") |}.

(** The file name under which [save_image] saves: the last component of
    the name asked for, or of the random name with the format in lower
    case as its extension when no name is given. *)
Definition saved_name {picture} (w : Save.World picture)
    (filename : option string) (format : string) : string :=
  Save.basename
    match filename with
    | Some name =>
        if String.eqb name EmptyString
        then Save.uuid4 w +:+ "." +:+ lower format
        else name
    | None => Save.uuid4 w +:+ "." +:+ lower format
    end.



(** A file system that holds a picture under every path. *)
Definition full_disk : Files.Env unit :=
  {| Files.path_exists := fun _ => true;
     Files.open_image := fun _ => Ok tt |}.

End Shapes.

(** * Properties *)

Import Py Json Config Filter Naming Http Api DataModel Shapes.

(** ** Characters and the string primitives *)

Lemma bind_ok {A B} (m : res A) (k : A -> res B) v :
  m ≫= k = Ok v -> exists a, m = Ok a /\ k a = Ok v.
Proof. destruct m as [a|e]; [eauto|discriminate]. Qed.

Lemma split_on_not_nil sep s : split_on sep s <> [].
Proof.
  destruct s as [|c s]; cbn [split_on]; [discriminate|].
  destruct (Ascii.eqb c sep); [discriminate|].
  destruct (split_on sep s); discriminate.
Qed.

(** Splitting at a separator: the pieces before it, then the pieces of
    what follows it. *)
Lemma split_on_app sep s t :
  exists piece pieces,
    split_on sep (s +:+ String sep t) = piece :: pieces ++ split_on sep t.
Proof.
  induction s as [|c s (piece & pieces & IH)].
  - exists EmptyString, [].
    change (EmptyString +:+ String sep t) with (String sep t).
    cbn [split_on]. now rewrite Ascii.eqb_refl.
  - change (String c s +:+ String sep t) with (String c (s +:+ String sep t)).
    cbn [split_on]. rewrite IH.
    destruct (Ascii.eqb c sep).
    + now exists EmptyString, (piece :: pieces).
    + now exists (String c piece), pieces.
Qed.



Lemma lower_ascii_idem c : lower_ascii (lower_ascii c) = lower_ascii c.
Proof.
  destruct c as [[] [] [] [] [] [] [] []]; reflexivity.
Qed.

Lemma lower_not_upper c : is_upper_ascii (lower_ascii c) = false.
Proof.
  destruct c as [[] [] [] [] [] [] [] []]; reflexivity.
Qed.

Lemma lower_ascii_fixed c : is_upper_ascii c = false -> lower_ascii c = c.
Proof. unfold lower_ascii. now intros ->. Qed.

Lemma lower_app s t : lower (s +:+ t) = lower s +:+ lower t.
Proof.
  induction s as [|c s IH]; simpl; [reflexivity|].
  unfold lower in *. simpl. now rewrite IH.
Qed.

Lemma lower_no_upper s : no_upper s = true -> lower s = s.
Proof.
  induction s as [|c s IH]; simpl; [reflexivity|].
  intros [Hc Hs]%andb_prop. apply negb_true_iff in Hc.
  unfold lower in *. simpl. now rewrite lower_ascii_fixed, IH.
Qed.

Lemma no_upper_lower s : no_upper (lower s) = true.
Proof.
  induction s as [|c s IH]; simpl; [reflexivity|].
  rewrite lower_not_upper. exact IH.
Qed.

Lemma no_upper_app s t :
  no_upper (s +:+ t) = no_upper s && no_upper t.
Proof.
  induction s as [|c s IH]; simpl; [reflexivity|].
  now rewrite IH, andb_assoc.
Qed.

(** A replacement whose new text has no upper-case letter adds none. *)
Lemma no_upper_replace_from old new k s :
  no_upper new = true -> no_upper s = true ->
  no_upper (replace_from old new k s) = true.
Proof.
  intros Hnew. revert k.
  induction s as [|c s IH]; intros k Hs; [reflexivity|].
  simpl in Hs. apply andb_prop in Hs as [Hc Hs].
  destruct k as [|k]; cbn [replace_from]; [|now apply IH].
  destruct (startswith old (String c s)).
  - rewrite no_upper_app, Hnew. now apply IH.
  - cbn [no_upper]. rewrite Hc. now apply IH.
Qed.

Lemma no_upper_replace old new s :
  no_upper new = true -> no_upper s = true ->
  no_upper (replace old new s) = true.
Proof. apply no_upper_replace_from. Qed.

Lemma no_upper_lstrip chars s :
  no_upper s = true -> no_upper (lstrip chars s) = true.
Proof.
  induction s as [|c s IH]; simpl; [reflexivity|].
  intros Hs. destruct (mem_ascii c chars); [|exact Hs].
  apply andb_prop in Hs as [_ Hs]. now apply IH.
Qed.

Lemma no_upper_separators s :
  no_upper s = true -> no_upper (separators_to_underscores s) = true.
Proof.
  intros Hs. unfold separators_to_underscores.
  repeat (apply no_upper_replace; [reflexivity|]). exact Hs.
Qed.

(** *** Collapsing pairs of underscores *)


Lemma contains_cons sub c s :
  contains sub (String c s) = startswith sub (String c s) || contains sub s.
Proof. reflexivity. Qed.

Lemma collapse_step c s :
  replace "__" "_" (String c s) =
  match s with
  | String d s' =>
      if Ascii.eqb c "_" && Ascii.eqb d "_"
      then String "_" (replace "__" "_" s')
      else String c (replace "__" "_" s)
  | EmptyString => String c EmptyString
  end.
Proof.
  unfold replace. cbn [replace_from startswith String.length Nat.sub].
  rewrite (Ascii.eqb_sym "_" c).
  destruct s as [|d s'].
  - rewrite andb_false_r. reflexivity.
  - rewrite (Ascii.eqb_sym "_" d), andb_true_r.
    destruct (Ascii.eqb c "_" && Ascii.eqb d "_"); reflexivity.
Qed.

(** When no three underscores are adjacent, one pass leaves no two
    adjacent, and the result starts with an underscore only if the
    string did. *)
Lemma collapse_no_triple n : forall s,
  (String.length s <= n)%nat ->
  contains "___" s = false ->
  contains "__" (replace "__" "_" s) = false
  /\ (starts_with_underscore (replace "__" "_" s) = true ->
      starts_with_underscore s = true).
Proof.
  unfold starts_with_underscore.
  induction n as [|n IH]; intros s Hlen Hs.
  - destruct s; [now split|simpl in Hlen; lia].
  - destruct s as [|c s]; [now split|].
    cbn [String.length] in Hlen. rewrite collapse_step.
    rewrite contains_cons in Hs. apply orb_false_elim in Hs as [Hhead Htail].
    destruct s as [|d s'].
    + split; [|intros H; exact H].
      cbn [contains startswith]. now rewrite andb_false_r.
    + cbn [String.length] in Hlen.
      destruct (Ascii.eqb c "_" && Ascii.eqb d "_") eqn:Hcd.
      * apply andb_prop in Hcd as [Hc Hd].
        apply Ascii.eqb_eq in Hc, Hd. subst c d.
        rewrite contains_cons in Htail.
        apply orb_false_elim in Htail as [_ Htail'].
        destruct (IH s' ltac:(lia) Htail') as [IH1 IH2].
        split; [|reflexivity].
        rewrite contains_cons, IH1, orb_false_r.
        destruct (replace "__" "_" s') as [|e r] eqn:Er.
        { cbn [startswith]. now rewrite andb_false_r. }
        cbn [startswith] in *. rewrite ?andb_true_r in *.
        destruct (Ascii.eqb_spec "_" e) as [<-|He]; [|now rewrite andb_false_r].
        specialize (IH2 eq_refl). destruct s' as [|e' s'']; [discriminate|].
        rewrite andb_true_r in IH2. apply Ascii.eqb_eq in IH2. subst e'.
        cbn in Hhead. discriminate.
      * destruct (IH (String d s') ltac:(cbn [String.length]; lia) Htail)
          as [IH1 IH2].
        split.
        -- rewrite contains_cons, IH1, orb_false_r.
           destruct (replace "__" "_" (String d s')) as [|e r] eqn:Er.
           { cbn [startswith]. now rewrite andb_false_r. }
           cbn [startswith] in *. rewrite ?andb_true_r in *.
           destruct (Ascii.eqb_spec "_" c) as [<-|Hc]; [|reflexivity].
           destruct (Ascii.eqb_spec "_" e) as [<-|He]; [|reflexivity].
           specialize (IH2 eq_refl). apply Ascii.eqb_eq in IH2. subst d.
           cbn in Hcd. discriminate.
        -- cbn [startswith]. intros H; exact H.
Qed.

Lemma contains_lstrip sub chars s :
  contains sub s = false -> contains sub (lstrip chars s) = false.
Proof.
  induction s as [|c s IH]; [intros H; exact H|].
  rewrite contains_cons. cbn [lstrip]. intros H.
  destruct (mem_ascii c chars).
  - apply IH. now apply orb_false_elim in H as [_ H].
  - now rewrite contains_cons.
Qed.

(** ** C1: the derived identifier *)

(** The identifier of the docstring of the source keeps the case of the
    path. *)
Example normalize_docstring :
  normalize_tool_name "GET" "/pets/{petId}" = "get_pets_petId".
Proof. reflexivity. Qed.

(** Lower-casing commutes with a replacement whose old text is matched
    regardless of case and whose new text has no letter to lower. *)
Lemma lower_replace_from old new k s :
  (forall t, startswith old (lower t) = startswith old t) ->
  lower new = new ->
  lower (replace_from old new k s) = replace_from old new k (lower s).
Proof.
  intros Hold Hnew. revert k.
  induction s as [|c s IH]; intros k; [reflexivity|].
  change (lower (String c s)) with (String (lower_ascii c) (lower s)).
  destruct k as [|k]; cbn [replace_from]; [|apply IH].
  change (String (lower_ascii c) (lower s)) with (lower (String c s)).
  rewrite Hold. destruct (startswith old (String c s)).
  - now rewrite lower_app, Hnew, IH.
  - change (lower (String c (replace_from old new 0 s)))
      with (String (lower_ascii c) (lower (replace_from old new 0 s))).
    now rewrite IH.
Qed.

Lemma lower_eqb_punct (a c : ascii) :
  is_upper_ascii a = false -> is_lower_ascii a = false ->
  Ascii.eqb a (lower_ascii c) = Ascii.eqb a c.
Proof.
  intros Hupper Hlower.
  destruct c as [[] [] [] [] [] [] [] []]; try reflexivity;
    match goal with
    | |- Ascii.eqb a ?x = Ascii.eqb a ?y =>
        let x' := eval vm_compute in x in
        change x with x';
        destruct (Ascii.eqb_spec a x') as [Ex|_];
        [rewrite Ex in Hlower; discriminate Hlower|];
        destruct (Ascii.eqb_spec a y) as [Ey|_];
        [rewrite Ey in Hupper; discriminate Hupper|reflexivity]
    end.
Qed.


Lemma startswith_lower old : no_letter old = true ->
  forall t, startswith old (lower t) = startswith old t.
Proof.
  induction old as [|a old IH]; intros Hold t; [reflexivity|].
  cbn [no_letter] in Hold.
  apply andb_prop in Hold as [[Ha1 Ha2]%andb_prop Hold].
  apply negb_true_iff in Ha1, Ha2.
  destruct t as [|c t]; [reflexivity|].
  change (lower (String c t)) with (String (lower_ascii c) (lower t)).
  cbn [startswith]. now rewrite lower_eqb_punct, IH.
Qed.

Lemma lower_replace old new s :
  no_letter old = true -> lower new = new ->
  lower (replace old new s) = replace old new (lower s).
Proof.
  intros Hold Hnew. apply lower_replace_from; [|exact Hnew].
  now apply startswith_lower.
Qed.

Lemma lower_lstrip_underscore s :
  lower (lstrip "_" s) = lstrip "_" (lower s).
Proof.
  induction s as [|c s IH]; [reflexivity|].
  change (lower (String c s)) with (String (lower_ascii c) (lower s)).
  cbn [lstrip mem_ascii].
  rewrite (Ascii.eqb_sym (lower_ascii c)), lower_eqb_punct by reflexivity.
  rewrite (Ascii.eqb_sym "_" c).
  destruct (Ascii.eqb c "_"); [exact IH|reflexivity].
Qed.

(** Up to the case of letters the identifier is the one of the
    specification, whatever the method and the path. *)
Lemma lower_normalize_tool_name method path :
  lower (normalize_tool_name method path) = derive_name_spec method path.
Proof.
  unfold normalize_tool_name, derive_name_spec, separators_to_underscores.
  rewrite lower_lstrip_underscore.
  rewrite !lower_replace by reflexivity.
  rewrite !lower_app.
  now rewrite (lower_no_upper (lower method)) by apply no_upper_lower.
Qed.

(** The claim fails on a path with a capital letter, and on a path whose
    separators leave three underscores in a row. *)
Lemma normalize_tool_name_counterexample :
  normalize_tool_name "GET" "/Pets/--x" = "get_Pets__x"
  /\ normalize_tool_name "GET" "/Pets/--x" <> derive_name_spec "GET" "/Pets/--x"
  /\ no_upper (normalize_tool_name "GET" "/Pets/--x") = false
  /\ contains "__" (normalize_tool_name "GET" "/Pets/--x") = true.
Proof. repeat split; vm_compute; congruence. Qed.

(** C1 (amended).  When the path has no upper-case letter and the
    replacements leave no three underscores in a row, the identifier is
    the one the specification describes, it is entirely lower-case, and
    no two underscores are adjacent in it. *)
Theorem normalize_tool_name_spec (method path : string) :
  no_upper path = true ->
  contains "___" (separators_to_underscores (lower method +:+ " " +:+ path)) = false ->
  normalize_tool_name method path = derive_name_spec method path
  /\ no_upper (normalize_tool_name method path) = true
  /\ contains "__" (normalize_tool_name method path) = false.
Proof.
  intros Hpath Hruns. split; [|split].
  - unfold normalize_tool_name, derive_name_spec.
    now rewrite !lower_app, (lower_no_upper path Hpath).
  - unfold normalize_tool_name.
    apply no_upper_lstrip, no_upper_replace; [reflexivity|].
    apply no_upper_separators.
    rewrite !no_upper_app, no_upper_lower, Hpath. reflexivity.
  - unfold normalize_tool_name. apply contains_lstrip.
    eapply collapse_no_triple; [reflexivity|exact Hruns].
Qed.

Lemma normalize_tool_name_spec_witness :
  normalize_tool_name "GET" "/cards/{id}" = derive_name_spec "GET" "/cards/{id}"
  /\ no_upper (normalize_tool_name "GET" "/cards/{id}") = true
  /\ contains "__" (normalize_tool_name "GET" "/cards/{id}") = false.
Proof.
  apply (normalize_tool_name_spec "GET" "/cards/{id}"); reflexivity.
Defined.

(** ** C4: binary responses and the download marker *)


Lemma scan_responses_well_formed path responses :
  forallb well_formed_response responses = true ->
  scan_responses path responses =
  Ok (negb (existsb (fun r => rejects_content path (content_types r)) responses)).
Proof.
  induction responses as [|r rs IH]; [reflexivity|].
  cbn [forallb existsb scan_responses].
  intros [Hr Hrs]%andb_prop.
  destruct r as [| | | | |fields]; try discriminate.
  unfold well_formed_response in Hr. cbn [dict_get content_types].
  destruct (assoc "content" fields) as [[| | | | |content]|];
    try discriminate; cbn.
  - destruct (rejects_content path (map fst content)); [reflexivity|].
    now apply IH.
  - now apply IH.
Qed.

Lemma rejects_content_marker path mime_types :
  rejects_content path mime_types =
  existsb is_binary_mime mime_types && negb (contains "download-image" path).
Proof.
  unfold rejects_content.
  induction mime_types as [|m ms IH]; [reflexivity|].
  cbn [existsb]. rewrite IH.
  now rewrite andb_orb_distrib_l.
Qed.

Lemma existsb_rejects_marker path responses :
  existsb (fun r => rejects_content path (content_types r)) responses =
  existsb (fun r => existsb is_binary_mime (content_types r)) responses
  && negb (contains "download-image" path).
Proof.
  induction responses as [|r rs IH]; [reflexivity|].
  cbn [existsb]. rewrite IH, rejects_content_marker.
  now rewrite andb_orb_distrib_l.
Qed.

Lemma should_register_endpoint_well_formed cfg path method operation :
  well_formed_operation operation = true ->
  should_register_endpoint cfg path method operation =
  Ok (negb (matches_excluded cfg path)
      && negb (declares_binary operation
               && negb (contains "download-image" path))).
Proof.
  intros Hwf. unfold should_register_endpoint.
  destruct (matches_excluded cfg path); [reflexivity|].
  destruct operation as [| | | | |fields]; try discriminate.
  unfold well_formed_operation in Hwf.
  unfold declares_binary, responses_of. cbn [dict_get].
  destruct (assoc "responses" fields) as [[| | | | |responses]|];
    try discriminate; cbn.
  - rewrite scan_responses_well_formed by exact Hwf.
    now rewrite existsb_rejects_marker.
  - reflexivity.
Qed.

(** C4.  An operation that declares a binary content type is rejected
    when its path lacks the marker, and with the marker it is accepted
    unless an excluded pattern rejects it: the filter answers whether the
    marker is in the path and no excluded pattern matches. *)
Theorem should_register_endpoint_binary cfg path method operation :
  well_formed_operation operation = true ->
  declares_binary operation = true ->
  should_register_endpoint cfg path method operation =
  Ok (contains "download-image" path && negb (matches_excluded cfg path)).
Proof.
  intros Hwf Hbin.
  rewrite should_register_endpoint_well_formed by exact Hwf.
  rewrite Hbin.
  destruct (matches_excluded cfg path), (contains "download-image" path);
    reflexivity.
Qed.


Lemma should_register_endpoint_binary_witness :
  should_register_endpoint default_settings "/cards/{id}/image" "get"
    image_operation = Ok false
  /\ should_register_endpoint default_settings "/cards/{id}/download-image" "get"
       image_operation = Ok true.
Proof.
  split.
  - exact (should_register_endpoint_binary default_settings
             "/cards/{id}/image" "get" image_operation eq_refl eq_refl).
  - exact (should_register_endpoint_binary default_settings
             "/cards/{id}/download-image" "get" image_operation eq_refl eq_refl).
Defined.

(** ** C2 and C9: the registration pass and the registry *)

Section Registration.

Variable py_str : json -> string.
Variable cfg : Settings.

(** The operations of one path item under the five methods. *)
Let ops (path : string) (entries : list (string * json)) :=
  map (fun entry : string * json => (path, fst entry, snd entry))
      (filter (fun entry : string * json => is_allowed_method (fst entry) = true)
              entries).

Lemma accepted_well_formed path method operation :
  well_formed_operation operation = true ->
  should_register_endpoint cfg path method operation =
  Ok (accepted cfg (path, method, operation)).
Proof.
  intros Hwf. unfold accepted.
  rewrite should_register_endpoint_well_formed by exact Hwf.
  now destruct (_ && _).
Qed.

Lemma make_docstring_well_formed path method operation :
  well_formed_operation operation = true ->
  make_docstring py_str path method operation =
  Ok (docstring py_str (path, method, operation)).
Proof.
  destruct operation; try discriminate. reflexivity.
Qed.

(** The inner loop on a well-formed path item: one record per accepted
    operation, one skip per rejected one, and no exception. *)
Lemma register_entries path entries : forall st,
  forallb well_formed_entry entries = true ->
  for_each (register_operation py_str cfg path) entries st =
  ({| mcp := mcp st ++ map (tool_of py_str)
                         (filter (fun op => accepted cfg op = true) (ops path entries));
      registered_count :=
        registered_count st
        + length (filter (fun op => accepted cfg op = true) (ops path entries));
      skipped_count :=
        skipped_count st
        + length (filter (fun op => accepted cfg op = false) (ops path entries)) |},
   None).
Proof.
  subst ops.
  induction entries as [|[method operation] entries IH]; intros st Hwf.
  - cbn. rewrite app_nil_r, !Nat.add_0_r. now destruct st.
  - cbn [forallb] in Hwf. apply andb_prop in Hwf as [Hentry Hwf].
    cbn [for_each register_operation].
    unfold well_formed_entry in Hentry. cbn [fst snd] in Hentry.
    destruct (is_allowed_method method) eqn:Hallowed; cbn [negb] in *.
    + rewrite filter_cons_True by exact Hallowed. cbn [map fst snd].
      rewrite accepted_well_formed by exact Hentry.
      destruct (accepted cfg (path, method, operation)) eqn:Hacc.
      * rewrite make_docstring_well_formed by exact Hentry.
        rewrite IH by exact Hwf. cbn [mcp registered_count skipped_count].
        rewrite filter_cons_True by exact Hacc.
        rewrite filter_cons_False by (cbv beta; cbn [fst snd]; congruence).
        cbn [map length tool_of]. rewrite <- app_assoc. cbn [app].
        do 2 f_equal. lia.
      * rewrite IH by exact Hwf. cbn [mcp registered_count skipped_count].
        rewrite filter_cons_False by (cbv beta; cbn [fst snd]; congruence).
        rewrite filter_cons_True by exact Hacc.
        cbn [length]. do 2 f_equal. lia.
    + rewrite filter_cons_False by (cbv beta; cbn [fst snd]; congruence). now apply IH.
Qed.

Lemma register_path_item_well_formed path path_item st :
  well_formed_path_item path_item = true ->
  register_path_item py_str cfg (path, path_item) st =
  for_each (register_operation py_str cfg path) (entries_of path_item) st.
Proof.
  intros Hwf. unfold register_path_item.
  destruct path_item as [| | | | |entries];
    try (unfold well_formed_path_item in Hwf; rewrite Hwf; reflexivity).
  now destruct entries.
Qed.

Let item_ops (items : list (string * json)) :=
  flat_map (fun item : string * json => ops (fst item) (entries_of (snd item))) items.

Lemma register_items items : forall st,
  forallb (fun item => well_formed_path_item (snd item)) items = true ->
  for_each (register_path_item py_str cfg) items st =
  ({| mcp := mcp st ++ map (tool_of py_str)
                         (filter (fun op => accepted cfg op = true) (item_ops items));
      registered_count :=
        registered_count st
        + length (filter (fun op => accepted cfg op = true) (item_ops items));
      skipped_count :=
        skipped_count st
        + length (filter (fun op => accepted cfg op = false) (item_ops items)) |},
   None).
Proof.
  subst item_ops.
  induction items as [|[path path_item] items IH]; intros st Hwf.
  - cbn. rewrite app_nil_r, !Nat.add_0_r. now destruct st.
  - cbn [forallb snd] in Hwf. apply andb_prop in Hwf as [Hitem Hwf].
    cbn [for_each].
    rewrite register_path_item_well_formed by exact Hitem.
    rewrite register_entries.
    + rewrite IH by exact Hwf. cbn [mcp registered_count skipped_count flat_map fst snd].
      rewrite !filter_app, !map_app, !length_app, <- app_assoc.
      do 2 f_equal; lia.
    + destruct path_item; try reflexivity. exact Hitem.
Qed.

(** On a well-formed document the pass registers one record per eligible
    operation, in document order, counts the rejected ones, and raises
    nothing. *)
Lemma register_openapi_endpoints_well_formed registry spec :
  well_formed_document spec = true ->
  register_openapi_endpoints_as_tools py_str cfg registry spec =
  ({| mcp := registry ++ map (tool_of py_str) (eligible cfg spec);
      registered_count := length (eligible cfg spec);
      skipped_count := length (rejected cfg spec) |}, None).
Proof.
  intros Hwf. unfold register_openapi_endpoints_as_tools.
  destruct spec as [| | | | |fields]; try discriminate.
  unfold well_formed_document in Hwf.
  unfold eligible, rejected, operations_of, path_items_of. cbn [dict_get].
  destruct (assoc "paths" fields) as [[| | | | |items]|]; try discriminate.
  - cbn. rewrite register_items by exact Hwf. reflexivity.
  - cbn. now rewrite app_nil_r.
Qed.

End Registration.

(** Two operations that pass the filter receive the same identifier: the
    pass calls [add_tool] for both under that identifier, counts both,
    and ends without an exception. *)
Example pass_calls_collide :
  eligible default_settings colliding_document =
    [("/a-b", "get", JObj []); ("/a_b", "get", JObj [])]
  /\ snd (register_openapi_endpoints_as_tools scalar_str default_settings []
            colliding_document) = None
  /\ map tool_name
       (FastMCP.pass_calls scalar_str default_settings colliding_document)
     = ["get_a_b"; "get_a_b"]
  /\ registered_count
       (fst (register_openapi_endpoints_as_tools scalar_str default_settings []
               colliding_document)) = 2%nat.
Proof. repeat split; reflexivity. Qed.

(** The server keeps the first of the two and reports the second. *)
Example after_pass_collision :
  FastMCP.after_pass scalar_str default_settings colliding_document
    FastMCP.fresh
  = {| FastMCP.tools :=
         [tool_of scalar_str ("/a-b", "get", JObj [])];
       FastMCP.warnings := ["get_a_b"] |}.
Proof. reflexivity. Qed.

(** On a well-formed document the pass calls [add_tool] once per
    operation that passes the filter, in document order, under the
    identifier derived from the method and the path of the operation. *)
Lemma pass_calls_well_formed py_str cfg spec :
  well_formed_document spec = true ->
  FastMCP.pass_calls py_str cfg spec = map (tool_of py_str) (eligible cfg spec)
  /\ map tool_name (FastMCP.pass_calls py_str cfg spec) =
     map (fun op => normalize_tool_name (snd (fst op)) (fst (fst op)))
         (eligible cfg spec).
Proof.
  intros Hwf. unfold FastMCP.pass_calls.
  rewrite register_openapi_endpoints_well_formed by exact Hwf.
  cbn [fst mcp app]. split; [reflexivity|].
  rewrite map_map. apply map_ext. now intros [[path method] operation].
Qed.

Section PassInvariant.

Variable py_str : json -> string.
Variable cfg : Settings.

Lemma grows_refl st : grows cfg st st.
Proof.
  exists []. rewrite app_nil_r, Nat.add_0_r. now repeat split.
Qed.

Lemma grows_trans st1 st2 st3 :
  grows cfg st1 st2 -> grows cfg st2 st3 -> grows cfg st1 st3.
Proof.
  intros (a1 & Hm1 & Hc1 & Hf1) (a2 & Hm2 & Hc2 & Hf2).
  exists (a1 ++ a2). rewrite Hm2, Hm1, Hc2, Hc1, length_app, <- app_assoc.
  repeat split; [lia|]. now apply Forall_app.
Qed.

(** A loop grows the state when each round does, whether or not a round
    raises. *)
Lemma for_each_grows {A} (body : A -> Pass -> Pass * option exc) l :
  (forall a st, grows cfg st (fst (body a st))) ->
  forall st, grows cfg st (fst (for_each body l st)).
Proof.
  intros Hbody. induction l as [|a l IH]; intros st; [apply grows_refl|].
  cbn [for_each]. specialize (Hbody a st).
  destruct (body a st) as [st' [e|]]; cbn [fst] in *; [exact Hbody|].
  eapply grows_trans; [exact Hbody|apply IH].
Qed.

Lemma register_operation_grows path entry st :
  grows cfg st (fst (register_operation py_str cfg path entry st)).
Proof.
  destruct entry as [method operation]. unfold register_operation.
  destruct (is_allowed_method method) eqn:Hallowed; cbn [negb];
    [|apply grows_refl].
  destruct (should_register_endpoint cfg path method operation)
    as [[|]|e] eqn:Hfilter; cbn [fst].
  - destruct (make_docstring py_str path method operation) as [doc|e];
      cbn [fst]; [|apply grows_refl].
    eexists [_]. cbn [mcp registered_count length].
    repeat split; [lia|].
    constructor; [|constructor].
    exists path, method, operation. now repeat split.
  - exists []. cbn. rewrite app_nil_r, Nat.add_0_r. now repeat split.
  - apply grows_refl.
Qed.

Lemma register_path_item_grows entry st :
  grows cfg st (fst (register_path_item py_str cfg entry st)).
Proof.
  destruct entry as [path path_item]. unfold register_path_item.
  destruct (truthy path_item); cbn [negb fst]; [|apply grows_refl].
  destruct (dict_items path_item) as [operations|e]; [|apply grows_refl].
  apply for_each_grows. intros a st'. apply register_operation_grows.
Qed.

Lemma register_openapi_endpoints_grows registry spec :
  grows cfg {| mcp := registry; registered_count := 0; skipped_count := 0 |}
    (fst (register_openapi_endpoints_as_tools py_str cfg registry spec)).
Proof.
  unfold register_openapi_endpoints_as_tools.
  destruct (_ ≫= _) as [items|e]; [|apply grows_refl].
  apply for_each_grows. intros a st. apply register_path_item_grows.
Qed.

End PassInvariant.

(** The counter of the pass is the number of its calls of [add_tool], and
    each call registers an operation that the filter accepts. *)
Lemma pass_calls_registered py_str cfg spec :
  registered_count (fst (register_openapi_endpoints_as_tools py_str cfg [] spec))
    = length (FastMCP.pass_calls py_str cfg spec)
  /\ Forall (registered_by cfg) (FastMCP.pass_calls py_str cfg spec).
Proof.
  destruct (register_openapi_endpoints_grows py_str cfg [] spec)
    as (added & Hm & Hc & Hf).
  unfold FastMCP.pass_calls. rewrite Hm, Hc. cbn [registered_count app].
  now split.
Qed.

(** *** The registry of the server *)

Lemma has_tool_elem name s :
  FastMCP.has_tool name s = true <-> name ∈ map tool_name (FastMCP.tools s).
Proof.
  unfold FastMCP.has_tool. rewrite existsb_exists. split.
  - intros (x & Hin & Heq). apply String.eqb_eq in Heq as ->.
    now apply list_elem_of_In.
  - intros H. exists name. split; [now apply list_elem_of_In|].
    apply String.eqb_refl.
Qed.

(** A sequence of calls of [add_tool] keeps the tools of the server and
    adds some of the tools of the calls, in their order; every call adds
    its tool or is reported under a name that the server holds; the
    names stay pairwise distinct; and no call is reported exactly when
    the names of the server and of the calls are pairwise distinct. *)
Lemma serve_spec calls : forall s,
  exists added collisions,
    FastMCP.tools (FastMCP.serve calls s) = FastMCP.tools s ++ added
    /\ FastMCP.warnings (FastMCP.serve calls s)
       = FastMCP.warnings s ++ collisions
    /\ (length added + length collisions)%nat = length calls
    /\ sublist added calls
    /\ Forall (fun name =>
                 name ∈ map tool_name (FastMCP.tools (FastMCP.serve calls s)))
              collisions
    /\ (NoDup (map tool_name (FastMCP.tools s)) ->
        NoDup (map tool_name (FastMCP.tools (FastMCP.serve calls s)))
        /\ (collisions = [] <->
            NoDup (map tool_name (FastMCP.tools s ++ calls)))).
Proof.
  induction calls as [|t calls IH]; intros s.
  - exists [], []. cbn [FastMCP.serve fold_left]. rewrite !app_nil_r.
    split; [reflexivity|]. split; [reflexivity|]. split; [reflexivity|].
    split; [apply sublist_nil|]. split; [constructor|].
    intros Hs. split; [exact Hs|]. now split.
  - change (FastMCP.serve (t :: calls) s)
      with (FastMCP.serve calls (FastMCP.add_tool t s)).
    unfold FastMCP.add_tool.
    destruct (FastMCP.has_tool (tool_name t) s) eqn:Htaken.
    + apply has_tool_elem in Htaken.
      match goal with |- context [FastMCP.serve calls ?s'] =>
        destruct (IH s') as (added & collisions & Ht & Hw & Hlen & Hsub & Hall & Hnd)
      end.
      cbn [FastMCP.tools FastMCP.warnings] in *.
      exists added, (tool_name t :: collisions).
      split; [exact Ht|]. split; [now rewrite Hw, <- app_assoc|].
      split; [cbn [length]; lia|]. split; [now apply sublist_cons|].
      split.
      * constructor; [|exact Hall].
        rewrite Ht, map_app, elem_of_app. now left.
      * intros Hs. destruct (Hnd Hs) as [Hnd' _]. split; [exact Hnd'|].
        split; [discriminate|]. intros Hdup. exfalso.
        rewrite map_app in Hdup. apply NoDup_app in Hdup as (_ & Hdisj & _).
        apply (Hdisj _ Htaken). cbn [map]. now left.
    + assert (tool_name t ∉ map tool_name (FastMCP.tools s)) as Hfresh.
      { intros H. apply has_tool_elem in H. congruence. }
      match goal with |- context [FastMCP.serve calls ?s'] =>
        destruct (IH s') as (added & collisions & Ht & Hw & Hlen & Hsub & Hall & Hnd)
      end.
      cbn [FastMCP.tools FastMCP.warnings] in *.
      exists (t :: added), collisions.
      split; [now rewrite Ht, <- app_assoc|]. split; [exact Hw|].
      split; [cbn [length]; lia|]. split; [now apply sublist_skip|].
      split; [exact Hall|].
      intros Hs. rewrite <- app_assoc in Hnd. apply Hnd.
      rewrite map_app. apply NoDup_app. split; [exact Hs|]. split.
      * intros name Hname Hin. cbn [map] in Hin.
        apply list_elem_of_singleton in Hin as ->. now apply Hfresh.
      * cbn [map]. apply NoDup_singleton.
Qed.



(** The record of the static tool that [register_api_tools] adds first. *)
Lemma register_api_tools_skip py_str cfg fetch registry :
  match fetch_openapi_spec fetch with
  | Some spec => truthy spec = false
  | None => True
  end ->
  register_api_tools py_str cfg fetch registry =
  (registry ++ [{| tool_fn := download_ontology_fn;
                   tool_name := "download_ontology";
                   tool_description := None |}], None).
Proof.
  unfold register_api_tools.
  destruct (fetch_openapi_spec fetch) as [spec|]; [|reflexivity].
  now intros ->.
Qed.

(** A document that is a non-empty array, or a non-empty string, is
    handed to the pass, which raises on its first attribute access. *)
Lemma register_api_tools_counterexample :
  snd (register_api_tools scalar_str default_settings
         (Responded (ok_response (JArr [JNum 1]))) []) = Some AttributeError
  /\ snd (register_api_tools scalar_str default_settings
            (Responded (ok_response (JStr "not a document"))) [])
     = Some AttributeError.
Proof. split; reflexivity. Qed.

(** C9 (amended).  When the fetched document is an object without a
    top-level ["paths"] entry, or is a value that counts as false (null,
    false, 0, the empty string, array or object), the registration ends
    without an exception and with the static tool only. *)
Theorem register_api_tools_without_paths py_str cfg fetch registry spec :
  fetch_openapi_spec fetch = Some spec ->
  truthy spec = false
  \/ (exists fields, spec = JObj fields /\ assoc "paths" fields = None) ->
  register_api_tools py_str cfg fetch registry =
  (registry ++ [{| tool_fn := download_ontology_fn;
                   tool_name := "download_ontology";
                   tool_description := None |}], None).
Proof.
  intros Hfetch [Hfalse|(fields & -> & Hpaths)].
  - apply register_api_tools_skip. now rewrite Hfetch.
  - unfold register_api_tools. rewrite Hfetch.
    destruct (truthy (JObj fields)); [|reflexivity].
    unfold register_openapi_endpoints_as_tools. cbn [dict_get].
    rewrite Hpaths. reflexivity.
Qed.

Lemma register_api_tools_without_paths_witness :
  register_api_tools scalar_str default_settings
    (Responded (ok_response (JObj [("openapi", JStr "3.0.0")]))) [] =
  ([] ++ [{| tool_fn := download_ontology_fn;
             tool_name := "download_ontology";
             tool_description := None |}], None).
Proof.
  apply (register_api_tools_without_paths scalar_str default_settings
           (Responded (ok_response (JObj [("openapi", JStr "3.0.0")]))) []
           (JObj [("openapi", JStr "3.0.0")]) eq_refl).
  right. exists [("openapi", JStr "3.0.0")]. split; reflexivity.
Defined.

(** ** C3: the request that a closure sends *)

Lemma upper_ascii_idem c : upper_ascii (upper_ascii c) = upper_ascii c.
Proof.
  destruct c as [[] [] [] [] [] [] [] []]; reflexivity.
Qed.

Lemma upper_idem s : upper (upper s) = upper s.
Proof.
  induction s as [|c s IH]; [reflexivity|].
  unfold upper in *. cbn [map_string]. now rewrite upper_ascii_idem, IH.
Qed.

Lemma lookup_without names : forall (params : gmap string json) k,
  without names params !! k =
  if bool_decide (k ∈ names) then None else params !! k.
Proof.
  unfold without.
  induction names as [|name names IH]; intros params k; cbn [fold_left].
  - now rewrite bool_decide_eq_false_2 by apply not_elem_of_nil.
  - rewrite IH. destruct (decide (k ∈ names)) as [Hin|Hin].
    + rewrite !bool_decide_eq_true_2; [reflexivity|now right|exact Hin].
    + rewrite (bool_decide_eq_false_2 _ Hin).
      destruct (decide (k = name)) as [->|Hne].
      * rewrite bool_decide_eq_true_2 by now left. apply lookup_delete_eq.
      * rewrite bool_decide_eq_false_2.
        -- now apply lookup_delete_ne.
        -- intros [->|H']%elem_of_cons; [now apply Hne|now apply Hin].
Qed.

Section Closure.

Variable py_str : json -> string.

Lemma substitute_param_well_formed param params url :
  well_formed_parameter param = true ->
  substitute_param py_str param (params, url) =
  Ok (without (path_name param) params,
      substituted_url py_str (path_name param) params url).
Proof.
  intros Hwf. destruct param as [| | | | |fields]; try discriminate.
  unfold well_formed_parameter in Hwf.
  unfold substitute_param, path_name. cbn [dict_get subscript].
  destruct (assoc "in" fields) as [location|]; [|reflexivity].
  destruct location as [| | |s| |]; try reflexivity.
  cbn [default mbind res_bind bind].
  destruct (String.eqb_spec s "path") as [->|Hs].
  - destruct (assoc "name" fields) as [[| | |name| |]|]; try discriminate.
    cbn. destruct (params !! name) as [value|] eqn:Hvalue.
    + now rewrite bool_decide_eq_true_2 by eauto.
    + rewrite bool_decide_eq_false_2 by (intros [v Hv]; congruence).
      unfold without. cbn [fold_left]. now rewrite delete_id.
  - assert (Hne : forall A (a b : A),
              match s with "path" => a | _ => b end = b).
    { intros A a b.
      repeat (destruct s as [|[[] [] [] [] [] [] [] []] s];
              try reflexivity). congruence. }
    cbn. rewrite !Hne. reflexivity.
Qed.

Lemma without_app names1 names2 (params : gmap string json) :
  without (names1 ++ names2) params = without names2 (without names1 params).
Proof. unfold without. apply fold_left_app. Qed.

Lemma substituted_url_app names1 : forall names2 params url,
  substituted_url py_str (names1 ++ names2) params url =
  substituted_url py_str names2 (without names1 params)
    (substituted_url py_str names1 params url).
Proof.
  induction names1 as [|name names1 IH]; intros names2 params url;
    [reflexivity|].
  cbn [app substituted_url]. unfold without. cbn [fold_left].
  destruct (params !! name) as [value|] eqn:Hvalue.
  - apply IH.
  - rewrite (delete_id _ _ Hvalue). apply IH.
Qed.

Lemma substitute_params_well_formed declared : forall params url,
  forallb well_formed_parameter declared = true ->
  substitute_params py_str declared (params, url) =
  Ok (without (flat_map path_name declared) params,
      substituted_url py_str (flat_map path_name declared) params url).
Proof.
  induction declared as [|param declared IH]; intros params url Hwf;
    [reflexivity|].
  cbn [forallb] in Hwf. apply andb_prop in Hwf as [Hparam Hwf].
  cbn [substitute_params flat_map].
  rewrite substitute_param_well_formed by exact Hparam.
  cbn [mbind res_bind bind]. rewrite IH by exact Hwf.
  now rewrite without_app, substituted_url_app.
Qed.

(** The closure of a well-formed operation reaches the executor, with
    the mapping less the declared path parameters and with the URL in
    which those supplied are substituted. *)
Lemma prepare_call_well_formed cfg path operation parameters :
  well_formed_parameters operation = true ->
  prepare_call py_str cfg path operation parameters =
  Ok (without (path_names operation) (default ∅ parameters),
      substituted_url py_str (path_names operation) (default ∅ parameters)
        (server_base_url cfg +:+ path)).
Proof.
  intros Hwf. destruct operation as [| | | | |fields]; try discriminate.
  unfold well_formed_parameters in Hwf.
  unfold prepare_call, path_names. cbn [dict_get].
  destruct (assoc "parameters" fields) as [[| | | |declared|]|];
    try discriminate; cbn.
  - now apply substitute_params_well_formed.
  - reflexivity.
Qed.

End Closure.

Lemma save_binary_sent cfg w content_type r fx :
  sent (snd (save_binary cfg w content_type r fx)) = sent fx.
Proof.
  unfold save_binary.
  destruct (startswith "image/" content_type);
    [destruct (split_on "/" content_type !! 1%nat)|];
    try destruct (disk_error w); reflexivity.
Qed.

Lemma handle_response_sent cfg w url r fx :
  sent (snd (handle_response cfg w url r fx)) = sent fx.
Proof.
  unfold handle_response.
  repeat (match goal with
          | |- context [if ?b then _ else _] => destruct b
          | |- context [match ?o with Some _ => _ | None => _ end] => destruct o
          end; try reflexivity; try apply save_binary_sent).
Qed.

(** Every call of the executor sends one request: the method in upper
    case, the parameters as query for GET and as JSON body otherwise. *)
Lemma make_api_request_sent cfg w url method params json_data timeout fx :
  sent (snd (make_api_request cfg w url method params json_data timeout fx)) =
  sent fx ++
  [{| req_method := upper method;
      req_url := url;
      req_params := if String.eqb (upper method) "GET" then params else None;
      req_json := if String.eqb (upper method) "GET" then None else json_data;
      req_headers := get_headers cfg;
      req_timeout := default (request_timeout cfg) timeout |}].
Proof.
  unfold make_api_request, build_request.
  destruct (http w _); [rewrite handle_response_sent|..];
    cbn [snd sent]; now destruct (String.eqb (upper method) "GET").
Qed.

(** C3.  The closure of a well-formed operation sends one request: the
    URL is the template with the supplied path parameters substituted,
    the path parameters are removed from the mapping, and what remains
    travels as query parameters for GET and as JSON body for any other
    method, the other channel being empty. *)
Theorem dynamic_tool_func_request py_str cfg w path method operation
    parameters fx :
  well_formed_parameters operation = true ->
  exists remaining final_url,
    prepare_call py_str cfg path operation parameters = Ok (remaining, final_url)
    /\ (forall k, remaining !! k =
                  if bool_decide (k ∈ path_names operation) then None
                  else default ∅ parameters !! k)
    /\ final_url = substituted_url py_str (path_names operation)
                     (default ∅ parameters) (server_base_url cfg +:+ path)
    /\ sent (snd (dynamic_tool_func py_str cfg w path method operation
                    parameters fx)) =
       sent fx ++
       [{| req_method := upper method;
           req_url := final_url;
           req_params := if String.eqb (upper method) "GET"
                         then Some remaining else None;
           req_json := if String.eqb (upper method) "GET"
                       then None else Some remaining;
           req_headers := get_headers cfg;
           req_timeout := request_timeout cfg |}].
Proof.
  intros Hwf. do 2 eexists. split; [|split; [|split]].
  - now apply prepare_call_well_formed.
  - intros k. apply lookup_without.
  - reflexivity.
  - unfold dynamic_tool_func.
    rewrite prepare_call_well_formed by exact Hwf.
    rewrite make_api_request_sent, upper_idem.
    now destruct (String.eqb (upper method) "GET").
Qed.

Lemma dynamic_tool_func_request_witness :
  exists remaining final_url,
    prepare_call scalar_str default_settings "/cards/{id}" card_operation
      (Some card_parameters) = Ok (remaining, final_url)
    /\ (forall k, remaining !! k =
                  if bool_decide (k ∈ path_names card_operation) then None
                  else default ∅ (Some card_parameters) !! k)
    /\ final_url = substituted_url scalar_str (path_names card_operation)
                     (default ∅ (Some card_parameters))
                     (server_base_url default_settings +:+ "/cards/{id}")
    /\ sent (snd (dynamic_tool_func scalar_str default_settings
                    (constant_world Timeout) "/cards/{id}" "get" card_operation
                    (Some card_parameters) no_effects)) =
       sent no_effects ++
       [{| req_method := upper "get";
           req_url := final_url;
           req_params := if String.eqb (upper "get") "GET"
                         then Some remaining else None;
           req_json := if String.eqb (upper "get") "GET"
                       then None else Some remaining;
           req_headers := get_headers default_settings;
           req_timeout := request_timeout default_settings |}].
Proof.
  apply (dynamic_tool_func_request scalar_str default_settings
           (constant_world Timeout) "/cards/{id}" "get" card_operation
           (Some card_parameters) no_effects).
  reflexivity.
Defined.

(** The example of the specification: [{"id": 7, "verbose": true}] on
    [GET /cards/{id}] puts [7] in the URL and sends [verbose] as a query
    parameter, with no body. *)
Example dynamic_tool_func_card :
  sent (snd (dynamic_tool_func scalar_str default_settings
               (constant_world Timeout) "/cards/{id}" "get" card_operation
               (Some card_parameters) no_effects)) =
  [{| req_method := "GET";
      req_url := "https://pad.crc.nd.edu/cards/7";
      req_params := Some (<["verbose" := JBool true]> ∅);
      req_json := None;
      req_headers := [];
      req_timeout := 30 |}].
Proof. vm_compute. reflexivity. Qed.

(** ** C6: the failures of a request *)

(** A response with a status outside 200 to 299 that is no error status
    for the requests library goes down the success path. *)
Lemma make_api_request_counterexample :
  fst (make_api_request default_settings
         (constant_world (Responded not_modified))
         "https://pad.crc.nd.edu/cards" "GET" None None None no_effects) =
  Ok (JObj [("success", JBool true); ("data", JStr "");
            ("content_type", JStr "");
            ("description", JStr "Response is not JSON data")]).
Proof. reflexivity. Qed.

(** C6 (amended).  For each failure that the specification names (the
    statuses 404, 401 and 403, any other status from 400 to 599, a
    timeout, a connection failure), the executor returns, and does not
    raise: an envelope with [success] false and the status code of the
    failure; the envelope of a generic HTTP error carries the text of the
    error, and the description of a timeout names the timeout in use. *)
Theorem make_api_request_failure cfg w url method params json_data timeout fx f :
  classify (http w (build_request cfg url method params json_data
                      (default (request_timeout cfg) timeout))) = Some f ->
  exists envelope,
    fst (make_api_request cfg w url method params json_data timeout fx)
      = Ok envelope
    /\ get_field "success" envelope = Some (JBool false)
    /\ get_field "status_code" envelope = Some (JNum (expected_status f))
    /\ match f with
       | HttpError text => get_field "error" envelope = Some (JStr text)
       | TimedOut =>
           get_field "description" envelope =
           Some (JStr ("The request to " +:+ url +:+ " timed out after "
                       +:+ pretty (default (request_timeout cfg) timeout)
                       +:+ " seconds."))
       | _ => is_Some (get_field "error" envelope)
       end.
Proof.
  unfold make_api_request, classify.
  destruct (http w _) as [r| | |msg].
  - unfold handle_response, raise_for_status.
    destruct (status_code r =? 404); [intros [= <-]; eexists; now repeat split|].
    destruct (status_code r =? 401); [intros [= <-]; eexists; now repeat split|].
    destruct (status_code r =? 403); [intros [= <-]; eexists; now repeat split|].
    destruct ((400 <=? status_code r) && (status_code r <? 500)).
    { destruct ((400 <=? status_code r) && (status_code r <? 600));
        [|discriminate].
      intros [= <-]. eexists. now repeat split. }
    destruct ((500 <=? status_code r) && (status_code r <? 600)).
    { destruct ((400 <=? status_code r) && (status_code r <? 600));
        [|discriminate].
      intros [= <-]. eexists. now repeat split. }
    destruct ((400 <=? status_code r) && (status_code r <? 600)); discriminate.
  - intros [= <-]. eexists. now repeat split.
  - intros [= <-]. eexists. now repeat split.
  - intros [= <-]. eexists. now repeat split.
Qed.

Lemma make_api_request_failure_witness :
  exists envelope,
    fst (make_api_request default_settings (constant_world Timeout)
           "https://pad.crc.nd.edu/cards" "GET" None None None no_effects)
      = Ok envelope
    /\ get_field "success" envelope = Some (JBool false)
    /\ get_field "status_code" envelope = Some (JNum (expected_status TimedOut))
    /\ get_field "description" envelope =
       Some (JStr ("The request to " +:+ "https://pad.crc.nd.edu/cards"
                   +:+ " timed out after "
                   +:+ pretty (default (request_timeout default_settings) None)
                   +:+ " seconds.")).
Proof.
  apply (make_api_request_failure default_settings (constant_world Timeout)
           "https://pad.crc.nd.edu/cards" "GET" None None None no_effects
           TimedOut).
  reflexivity.
Defined.

Example timeout_description :
  get_field "description"
    (JObj [("description",
            JStr ("The request to " +:+ "u" +:+ " timed out after "
                  +:+ pretty 30 +:+ " seconds."))]) =
  Some (JStr "The request to u timed out after 30 seconds.").
Proof. reflexivity. Qed.

(** ** C5: the result of a dynamic tool *)

Lemma failure_envelope err code descr :
  executor_envelope (failure err code descr).
Proof. exists false, descr. cbn. eauto 10. Qed.

Lemma save_binary_result cfg w content_type r fx v :
  fst (save_binary cfg w content_type r fx) = Ok v -> executor_envelope v.
Proof.
  unfold save_binary.
  destruct (startswith "image/" content_type);
    [destruct (split_on "/" content_type !! 1%nat); [|discriminate]|];
    (destruct (disk_error w); [discriminate|]);
    intros [= <-]; eexists true, _; cbn; eauto 10.
Qed.

Lemma handle_response_result cfg w url r fx v :
  fst (handle_response cfg w url r fx) = Ok v ->
  (plain_response r = true /\ json_body r = Some v) \/ executor_envelope v.
Proof.
  unfold handle_response, plain_response.
  destruct (status_code r =? 404);
    [intros [= <-]; right; apply failure_envelope|].
  destruct (status_code r =? 401);
    [intros [= <-]; right; apply failure_envelope|].
  destruct (status_code r =? 403);
    [intros [= <-]; right; apply failure_envelope|].
  destruct (raise_for_status r);
    [intros [= <-]; right; apply failure_envelope|].
  destruct (_ || _); [intros H; right; eapply save_binary_result, H|].
  destruct (json_body r) as [body|]; intros [= <-]; [now left|].
  right. eexists true, _. cbn. eauto 10.
Qed.

Lemma make_api_request_result cfg w url method params json_data timeout fx v :
  fst (make_api_request cfg w url method params json_data timeout fx) = Ok v ->
  (exists r,
     http w (build_request cfg url method params json_data
               (default (request_timeout cfg) timeout)) = Responded r
     /\ plain_response r = true
     /\ json_body r = Some v)
  \/ executor_envelope v.
Proof.
  unfold make_api_request.
  destruct (http w _) as [r| | |msg] eqn:Hout.
  - intros [[Hplain Hbody]|H]%handle_response_result; [left; eauto|now right].
  - intros [= <-]. right. apply failure_envelope.
  - intros [= <-]. right. apply failure_envelope.
  - intros [= <-]. right. apply failure_envelope.
Qed.

(** A plain response with a body that parses as JSON is answered with
    that body. *)
Lemma handle_response_plain cfg w url r fx body :
  plain_response r = true -> json_body r = Some body ->
  handle_response cfg w url r fx = (Ok body, fx).
Proof.
  unfold handle_response, plain_response. intros Hplain Hbody.
  destruct (status_code r =? 404); [discriminate|].
  destruct (status_code r =? 401); [discriminate|].
  destruct (status_code r =? 403); [discriminate|].
  destruct (raise_for_status r); [discriminate|].
  destruct (_ || _); [discriminate|].
  now rewrite Hbody.
Qed.

(** A body that parses as JSON comes back as it is, with none of the
    fields of an envelope. *)
Lemma dynamic_tool_func_result_counterexample :
  fst (dynamic_tool_func scalar_str default_settings
         (constant_world (Responded (ok_response (JObj [("id", JNum 7)]))))
         "/cards/{id}" "get" card_operation (Some card_parameters) no_effects)
  = Ok (JObj [("id", JNum 7)])
  /\ get_field "success" (JObj [("id", JNum 7)]) = None
  /\ get_field "error" (JObj [("id", JNum 7)]) = None
  /\ get_field "description" (JObj [("id", JNum 7)]) = None.
Proof. repeat split; vm_compute; reflexivity. Qed.

(** C5 (amended).  The result of a dynamic tool that completes is one of
    two things.  Either it is the body of the response, verbatim: then
    the request that the closure sent (the URL after the substitution of
    the path parameters, the method in upper case, the remaining
    parameters as query for GET and as body otherwise, the configured
    timeout) was answered with a status that is none of 404, 401, 403
    and none from 400 to 599, with a content type that is neither an
    image nor an octet stream, and with a body that parses as JSON to the
    result.  Or it is an envelope of the executor: a boolean [success]
    and a [description], with [error] and [status_code] and no payload
    on a failure, and with no [error] field and the payload under [data]
    or [path] on a success. *)
Theorem dynamic_tool_func_result py_str cfg w path method operation
    parameters fx v :
  fst (dynamic_tool_func py_str cfg w path method operation parameters fx)
    = Ok v ->
  (exists remaining final_url r,
     prepare_call py_str cfg path operation parameters
       = Ok (remaining, final_url)
     /\ http w (build_request cfg final_url (upper method)
                  (if String.eqb (upper method) "GET"
                   then Some remaining else None)
                  (if negb (String.eqb (upper method) "GET")
                   then Some remaining else None)
                  (request_timeout cfg)) = Responded r
     /\ plain_response r = true
     /\ json_body r = Some v)
  \/ executor_envelope v.
Proof.
  unfold dynamic_tool_func.
  destruct (prepare_call py_str cfg path operation parameters)
    as [[remaining final_url]|e]; [|discriminate].
  intros [(r & Hr & Hplain & Hbody)|H]%make_api_request_result;
    [left; exists remaining, final_url, r; now repeat split|now right].
Qed.

Lemma dynamic_tool_func_result_witness :
  (exists remaining final_url r,
     prepare_call scalar_str default_settings "/cards/{id}" card_operation
       (Some card_parameters) = Ok (remaining, final_url)
     /\ http (constant_world (Responded (ok_response (JObj [("id", JNum 7)]))))
          (build_request default_settings final_url (upper "get")
             (if String.eqb (upper "get") "GET" then Some remaining else None)
             (if negb (String.eqb (upper "get") "GET")
              then Some remaining else None)
             (request_timeout default_settings)) = Responded r
     /\ plain_response r = true
     /\ json_body r = Some (JObj [("id", JNum 7)]))
  \/ executor_envelope (JObj [("id", JNum 7)]).
Proof.
  apply (dynamic_tool_func_result scalar_str default_settings
           (constant_world (Responded (ok_response (JObj [("id", JNum 7)]))))
           "/cards/{id}" "get" card_operation (Some card_parameters)
           no_effects).
  vm_compute. reflexivity.
Defined.

(** Conversely, when the request of the closure is answered with a plain
    response whose body parses as JSON, the tool returns that body. *)
Lemma dynamic_tool_func_verbatim py_str cfg w path method operation
    parameters fx remaining final_url r body :
  prepare_call py_str cfg path operation parameters
    = Ok (remaining, final_url) ->
  http w (build_request cfg final_url (upper method)
            (if String.eqb (upper method) "GET" then Some remaining else None)
            (if negb (String.eqb (upper method) "GET")
             then Some remaining else None)
            (request_timeout cfg)) = Responded r ->
  plain_response r = true -> json_body r = Some body ->
  fst (dynamic_tool_func py_str cfg w path method operation parameters fx)
  = Ok body.
Proof.
  intros Hcall Hr Hplain Hbody. unfold dynamic_tool_func, make_api_request.
  rewrite Hcall. cbn [default from_option id]. rewrite Hr.
  now rewrite (handle_response_plain _ _ _ _ _ body Hplain Hbody).
Qed.

(** The body that the tool returns is not an envelope, and the result
    is the first alternative only. *)
Example dynamic_tool_func_body :
  ~ executor_envelope (JObj [("id", JNum 7)]).
Proof. intros (b & d & Hsuccess & _). discriminate Hsuccess. Qed.

(** ** C10: the clamping of the region statistics *)

Import Analysis.

Lemma clamp_bbox_bounds w h x1 y1 x2 y2 :
  1 <= w -> 1 <= h ->
  match clamp_bbox w h x1 y1 x2 y2 with
  | (a, b, c, d) => 0 <= a < c /\ c <= w /\ 0 <= b < d /\ d <= h
  end.
Proof. intros Hw Hh. unfold clamp_bbox. lia. Qed.

Lemma length_slice {A} lo hi (l : list A) :
  0 <= lo <= hi -> (Z.to_nat hi <= length l)%nat ->
  length (slice lo hi l) = Z.to_nat (hi - lo).
Proof.
  intros Hlo Hhi. unfold slice. rewrite length_take, length_drop. lia.
Qed.

Lemma length_concat_uniform {A} (k : nat) (ls : list (list A)) :
  Forall (fun l => length l = k) ls ->
  length (concat ls) = (length ls * k)%nat.
Proof.
  induction 1 as [|l ls Hl _ IH]; [reflexivity|].
  cbn [concat length]. rewrite length_app, Hl, IH. lia.
Qed.

Lemma Forall_slice {A} (P : A -> Prop) lo hi (l : list A) :
  Forall P l -> Forall P (slice lo hi l).
Proof. intros H. unfold slice. now apply Forall_take, Forall_drop. Qed.

(** The values of a channel over a box inside a well-formed image: one
    for each pixel of the box. *)
Lemma length_channel_data img idx a b c d :
  well_formed img ->
  0 <= a <= c -> c <= width img -> 0 <= b <= d -> d <= height img ->
  length (channel_data idx (extract img a b c d))
  = (Z.to_nat (d - b) * Z.to_nat (c - a))%nat.
Proof.
  intros (Hw & Hh & Hrows & Hrow) Hac Hc Hbd Hd.
  unfold channel_data, extract.
  rewrite (length_concat_uniform (Z.to_nat (c - a))).
  - rewrite !length_map, length_slice; [reflexivity|lia|lia].
  - rewrite !Forall_map. eapply Forall_impl.
    + apply Forall_slice, Hrow.
    + cbn. intros row Hlen. rewrite length_map, length_slice; lia.
Qed.

Lemma channel_data_nonempty img idx a b c d :
  well_formed img ->
  0 <= a < c -> c <= width img -> 0 <= b < d -> d <= height img ->
  channel_data idx (extract img a b c d) <> [].
Proof.
  intros Hwf Hac Hc Hbd Hd Hnil.
  apply (f_equal length) in Hnil.
  rewrite length_channel_data in Hnil by (try assumption; lia).
  cbn in Hnil. nia.
Qed.

Lemma all_in_bbox_keys fields x1 y1 x2 y2 :
  assoc "x1" fields = Some x1 -> assoc "y1" fields = Some y1 ->
  assoc "x2" fields = Some x2 -> assoc "y2" fields = Some y2 ->
  all_in bbox_keys (JObj fields) = Ok true.
Proof.
  intros H1 H2 H3 H4. unfold bbox_keys. cbn [all_in py_in].
  rewrite H1, H2, H3, H4. reflexivity.
Qed.

Section RegionStatistics.

Variable float : Type.
Variable np_stat : string -> list Z -> res float.

(** The statistics of numpy are defined on an array that is not empty. *)
Hypothesis np_stat_total :
  forall metric values, values <> [] -> exists v, np_stat metric values = Ok v.

Lemma channel_results_total wanted metrics values :
  values <> [] ->
  exists results, channel_results float np_stat wanted metrics values = Ok results.
Proof.
  intros Hvalues.
  induction wanted as [|m wanted [results IH]]; [now eexists|].
  cbn [channel_results].
  destruct (existsb (is_str m) metrics); [|eauto].
  destruct (np_stat_total m values Hvalues) as [v ->].
  rewrite IH. cbn. eauto.
Qed.

Lemma all_channels_total metrics img a b c d :
  well_formed img ->
  0 <= a < c -> c <= width img -> 0 <= b < d -> d <= height img ->
  exists channels,
    all_channels float np_stat metrics (extract img a b c d) = Ok channels.
Proof.
  intros Hwf Hac Hc Hbd Hd. unfold all_channels.
  destruct (channel_results_total valid_metrics metrics
              (channel_data 0 (extract img a b c d))) as [r ->];
    [now apply channel_data_nonempty|].
  destruct (channel_results_total valid_metrics metrics
              (channel_data 1 (extract img a b c d))) as [g ->];
    [now apply channel_data_nonempty|].
  destruct (channel_results_total valid_metrics metrics
              (channel_data 2 (extract img a b c d))) as [bl ->];
    [now apply channel_data_nonempty|].
  now eexists.
Qed.

(** The metrics of a channel are the valid metrics that the list passed
    in names, in the order of the valid ones, each with the statistic of
    that name over the values of the channel. *)
Lemma channel_results_computed wanted metrics values results :
  channel_results float np_stat wanted metrics values = Ok results ->
  map fst results = filter (fun m => existsb (is_str m) metrics = true) wanted
  /\ Forall (fun kv => np_stat (fst kv) values = Ok (snd kv)) results.
Proof.
  revert results.
  induction wanted as [|m wanted IH]; intros results H.
  - injection H as <-. split; [reflexivity|constructor].
  - cbn [channel_results] in H.
    destruct (existsb (is_str m) metrics) eqn:Hm.
    + apply bind_ok in H as (v & Hv & H).
      apply bind_ok in H as (rest & Hrest & [= <-]).
      destruct (IH rest Hrest) as [Hkeys Hall].
      rewrite filter_cons_True by exact Hm. cbn [map fst].
      split; [now rewrite Hkeys|now constructor].
    + rewrite filter_cons_False by congruence. now apply IH.
Qed.

Lemma filter_ext_elem {A} (P Q : A -> Prop) `{!forall x, Decision (P x)}
    `{!forall x, Decision (Q x)} (l : list A) :
  (forall x, x ∈ l -> P x <-> Q x) -> filter P l = filter Q l.
Proof.
  induction l as [|a l IH]; intros Hext; [reflexivity|].
  rewrite !filter_cons.
  assert (filter P l = filter Q l) as ->
    by (apply IH; intros x Hx; apply Hext; now right).
  destruct (decide (P a)) as [HP|HP], (decide (Q a)) as [HQ|HQ];
    try reflexivity; exfalso.
  - apply HQ, (Hext a); [now left|exact HP].
  - apply HP, (Hext a); [now left|exact HQ].
Qed.

(** Dropping the names that are no valid metric changes nothing for a
    valid metric. *)
Lemma requested_valid_metric requested m :
  m ∈ valid_metrics ->
  existsb (is_str m)
    (filter (fun j => existsb (fun v => is_str v j) valid_metrics) requested)
  = existsb (is_str m) requested.
Proof.
  intros Hm. induction requested as [|j requested IH]; [reflexivity|].
  destruct (existsb (fun v => is_str v j) valid_metrics) eqn:Hj.
  - rewrite filter_cons_True by (rewrite Hj; exact I).
    cbn [existsb]. now rewrite IH.
  - rewrite filter_cons_False by (rewrite Hj; intros []).
    cbn [existsb]. rewrite IH.
    destruct (is_str m j) eqn:Hmj; [|reflexivity].
    assert (existsb (fun v => is_str v j) valid_metrics = true) as Hj'.
    { apply existsb_exists. exists m. split; [now apply list_elem_of_In|exact Hmj]. }
    congruence.
Qed.

Lemma filter_requested_valid requested :
  filter (fun m =>
            existsb (is_str m)
              (filter (fun j => existsb (fun v => is_str v j) valid_metrics)
                      requested) = true) valid_metrics
  = filter (fun m => existsb (is_str m) requested = true) valid_metrics.
Proof.
  apply filter_ext_elem. intros m Hm. now rewrite requested_valid_metric.
Qed.

(** C10.  For a region whose bounding box has the four keys with integer
    values, on an image of at least one pixel, the coordinates are
    clamped to [0 <= x1 < x2 <= w] and [0 <= y1 < y2 <= h], and the
    extracted region has a value of every channel.  The channels of the
    entry are r, g and b, and under each are exactly the valid metrics
    that were requested, each being the statistic of numpy of that name
    over the values of the channel in the extracted region, which are
    not empty.  The entry of the region is these statistics of the
    clamped box, not an error. *)
Theorem analyze_region_clamps img i fields bbox x1 y1 x2 y2 requested results :
  well_formed img -> 1 <= width img -> 1 <= height img ->
  assoc "bbox" fields = Some (JObj bbox) ->
  assoc "x1" bbox = Some (JNum x1) -> assoc "y1" bbox = Some (JNum y1) ->
  assoc "x2" bbox = Some (JNum x2) -> assoc "y2" bbox = Some (JNum y2) ->
  hashable (default (JStr ("region_" +:+ pretty (Z.of_nat i + 1)))
              (assoc "name" fields)) = true ->
  py_iter (default (JArr [JStr "avg"]) (assoc "metrics" fields)) = Ok requested ->
  exists a b c d channels,
    clamp_bbox (width img) (height img) x1 y1 x2 y2 = (a, b, c, d)
    /\ (0 <= a < c /\ c <= width img /\ 0 <= b < d /\ d <= height img)
    /\ (forall idx, channel_data idx (extract img a b c d) <> [])
    /\ all_channels float np_stat
         (filter (fun m => existsb (fun v => is_str v m) valid_metrics)
                 requested)
         (extract img a b c d) = Ok channels
    /\ map fst channels = ["r"; "g"; "b"]
    /\ (forall idx name stats,
          channels !! idx = Some (name, stats) ->
          map fst stats
          = filter (fun m => existsb (is_str m) requested = true) valid_metrics
          /\ Forall (fun kv =>
                       np_stat (fst kv) (channel_data idx (extract img a b c d))
                       = Ok (snd kv)) stats)
    /\ analyze_region float np_stat img i (JObj fields) results =
       Ok (set_entry float
             (default (JStr ("region_" +:+ pretty (Z.of_nat i + 1)))
                (assoc "name" fields))
             (RegionStats float (a, b, c, d) (c - a, d - b) channels)
             (set_entry float
                (default (JStr ("region_" +:+ pretty (Z.of_nat i + 1)))
                   (assoc "name" fields))
                (RegionStats float (a, b, c, d) (c - a, d - b) [])
                results)).
Proof.
  intros Hwf Hw Hh Hbbox Hx1 Hy1 Hx2 Hy2 Hname Hmetrics.
  pose proof (clamp_bbox_bounds (width img) (height img) x1 y1 x2 y2 Hw Hh)
    as Hbounds.
  destruct (clamp_bbox (width img) (height img) x1 y1 x2 y2)
    as [[[a b] c] d] eqn:Hclamp.
  destruct Hbounds as (Hac & Hc & Hbd & Hd).
  destruct (all_channels_total
              (filter (fun m => existsb (fun v => is_str v m) valid_metrics)
                      requested)
              img a b c d Hwf Hac Hc Hbd Hd) as [channels Hchannels].
  exists a, b, c, d, channels. split; [reflexivity|].
  split; [repeat split; lia|].
  split; [intros idx; now apply channel_data_nonempty|].
  split; [exact Hchannels|].
  assert (map fst channels = ["r"; "g"; "b"]
          /\ forall idx name stats,
               channels !! idx = Some (name, stats) ->
               map fst stats
               = filter (fun m => existsb (is_str m) requested = true)
                        valid_metrics
               /\ Forall (fun kv =>
                            np_stat (fst kv)
                              (channel_data idx (extract img a b c d))
                            = Ok (snd kv)) stats) as [Hnames Hstats].
  { pose proof Hchannels as H. unfold all_channels in H.
    apply bind_ok in H as (rs & Hr & H).
    apply bind_ok in H as (gs & Hg & H).
    apply bind_ok in H as (bs & Hb & [= <-]).
    apply channel_results_computed in Hr as [Hr1 Hr2].
    apply channel_results_computed in Hg as [Hg1 Hg2].
    apply channel_results_computed in Hb as [Hb1 Hb2].
    rewrite filter_requested_valid in Hr1, Hg1, Hb1.
    split; [reflexivity|].
    intros [|[|[|idx]]] name stats [= <- <-]; now split. }
  split; [exact Hnames|]. split; [exact Hstats|].
  unfold analyze_region. cbn [dict_get]. rewrite Hbbox.
  cbn [default from_option id mbind res_bind bind]. rewrite Hmetrics.
  cbn [mbind res_bind bind].
  rewrite (all_in_bbox_keys bbox _ _ _ _ Hx1 Hy1 Hx2 Hy2).
  cbn [negb subscript mbind res_bind bind]. rewrite Hx1, Hy1, Hx2, Hy2.
  cbn [as_int mbind res_bind bind]. rewrite Hclamp.
  unfold set_item. rewrite Hname. cbn [mbind res_bind bind].
  rewrite Hchannels. reflexivity.
Qed.

End RegionStatistics.

Lemma analyze_region_clamps_witness :
  exists a b c d channels,
    clamp_bbox (width tiny_image) (height tiny_image) 1 1 0 0 = (a, b, c, d)
    /\ (0 <= a < c /\ c <= width tiny_image
        /\ 0 <= b < d /\ d <= height tiny_image)
    /\ (forall idx, channel_data idx (extract tiny_image a b c d) <> [])
    /\ all_channels Z sum_stat
         (filter (fun m => existsb (fun v => is_str v m) valid_metrics)
                 [JStr "max"; JStr "sharpness"; JStr "avg"])
         (extract tiny_image a b c d) = Ok channels
    /\ map fst channels = ["r"; "g"; "b"]
    /\ (forall idx name stats,
          channels !! idx = Some (name, stats) ->
          map fst stats
          = filter (fun m =>
                      existsb (is_str m)
                        [JStr "max"; JStr "sharpness"; JStr "avg"] = true)
                   valid_metrics
          /\ Forall (fun kv =>
                       sum_stat (fst kv)
                         (channel_data idx (extract tiny_image a b c d))
                       = Ok (snd kv)) stats)
    /\ analyze_region Z sum_stat tiny_image 0
         (JObj [("name", JStr "spot");
                ("bbox", JObj [("x1", JNum 1); ("y1", JNum 1);
                               ("x2", JNum 0); ("y2", JNum 0)]);
                ("metrics", JArr [JStr "max"; JStr "sharpness"; JStr "avg"])])
         [] =
       Ok (set_entry Z
             (default (JStr ("region_" +:+ pretty (Z.of_nat 0 + 1)))
                (assoc "name"
                   [("name", JStr "spot");
                    ("bbox", JObj [("x1", JNum 1); ("y1", JNum 1);
                                   ("x2", JNum 0); ("y2", JNum 0)]);
                    ("metrics",
                     JArr [JStr "max"; JStr "sharpness"; JStr "avg"])]))
             (RegionStats Z (a, b, c, d) (c - a, d - b) channels)
             (set_entry Z
                (default (JStr ("region_" +:+ pretty (Z.of_nat 0 + 1)))
                   (assoc "name"
                      [("name", JStr "spot");
                       ("bbox", JObj [("x1", JNum 1); ("y1", JNum 1);
                                      ("x2", JNum 0); ("y2", JNum 0)]);
                       ("metrics",
                        JArr [JStr "max"; JStr "sharpness"; JStr "avg"])]))
                (RegionStats Z (a, b, c, d) (c - a, d - b) [])
                [])).
Proof.
  apply (analyze_region_clamps Z sum_stat
           (fun metric values _ =>
              ex_intro _ (fold_right Z.add 0 values) eq_refl)
           tiny_image 0%nat
           [("name", JStr "spot");
            ("bbox", JObj [("x1", JNum 1); ("y1", JNum 1);
                           ("x2", JNum 0); ("y2", JNum 0)]);
            ("metrics", JArr [JStr "max"; JStr "sharpness"; JStr "avg"])]
           [("x1", JNum 1); ("y1", JNum 1); ("x2", JNum 0); ("y2", JNum 0)]
           1 1 0 0 [JStr "max"; JStr "sharpness"; JStr "avg"] []);
    first [reflexivity | cbn; lia
          | unfold well_formed; cbn; repeat split; try lia; repeat constructor].
Defined.

(** The entry of the example: the inverted box (1, 1, 0, 0) becomes the
    pixel (1, 1), and the two valid metrics asked for are computed on its
    one value of each channel, in the order of the code. *)
Example analyze_region_clamps_entry :
  analyze_region Z sum_stat tiny_image 0
    (JObj [("name", JStr "spot");
           ("bbox", JObj [("x1", JNum 1); ("y1", JNum 1);
                          ("x2", JNum 0); ("y2", JNum 0)]);
           ("metrics", JArr [JStr "max"; JStr "sharpness"; JStr "avg"])]) []
  = Ok [(JStr "spot",
         RegionStats Z (1, 1, 2, 2) (1, 1)
           [("r", [("avg", 10); ("max", 10)]);
            ("g", [("avg", 11); ("max", 11)]);
            ("b", [("avg", 12); ("max", 12)])])].
Proof. vm_compute. reflexivity. Qed.

(** ** C7: the validation of a bounding box *)

(** The region statistics accept an inverted box, which they clamp, and
    answer [success] for a box without [y2], which they only mark. *)
Lemma bounding_box_counterexample :
  success (analyze_image_regions Z sum_stat tiny_env "card.png"
             (JArr [inverted_region])) = true
  /\ data (analyze_image_regions Z sum_stat tiny_env "card.png"
             (JArr [inverted_region])) =
     [(JStr "spot",
       RegionStats Z (1, 1, 2, 2) (1, 1)
         [("r", [("avg", 10)]); ("g", [("avg", 11)]); ("b", [("avg", 12)])])]
  /\ success (analyze_image_regions Z sum_stat tiny_env "card.png"
                (JArr [incomplete_region])) = true
  /\ data (analyze_image_regions Z sum_stat tiny_env "card.png"
             (JArr [incomplete_region])) =
     [(JStr "spot", RegionInvalid Z "Invalid bounding box specification")].
Proof. repeat split; vm_compute; reflexivity. Qed.

Lemma all_in_missing_key fields k :
  k ∈ bbox_keys -> assoc k fields = None ->
  all_in bbox_keys (JObj fields) = Ok false.
Proof.
  intros Hk Hnone. unfold bbox_keys in *. cbn [all_in py_in].
  repeat (apply elem_of_cons in Hk as [->|Hk]);
    [..|now apply elem_of_nil in Hk];
    rewrite ?Hnone;
    repeat (match goal with
            | |- context [assoc ?key fields] => destruct (assoc key fields)
            end);
    reflexivity.
Qed.

Lemma invalid_coordinates_spec img x1 y1 x2 y2 :
  invalid_coordinates img (JNum x1) (JNum y1) (JNum x2) (JNum y2) =
  Ok ((x1 <? 0) || (y1 <? 0) || (width img <? x2) || (height img <? y2)
      || (x2 <=? x1) || (y2 <=? y1)).
Proof.
  unfold invalid_coordinates, any_lazy, lt, gt, ge. cbn.
  destruct (x1 <? 0), (y1 <? 0), (width img <? x2), (height img <? y2),
    (x2 <=? x1), (y2 <=? y1); reflexivity.
Qed.

Section AverageRgb.

Variable float : Type.
Variable np_stat : string -> list Z -> res float.
Variable py_str : json -> string.

(** C7 (amended).  The average-RGB tool rejects by its own tests, and not
    through an exception, a bounding box that lacks one of the four keys
    and one whose integer coordinates are outside the image or inverted:
    the body of the tool returns an envelope with [success] false, an
    error message and no payload. *)
Theorem compute_average_rgb_rejects env fields image_path :
  (exists k, k ∈ bbox_keys /\ assoc k fields = None)
  \/ (exists x1 y1 x2 y2,
        assoc "x1" fields = Some (JNum x1) /\ assoc "y1" fields = Some (JNum y1)
        /\ assoc "x2" fields = Some (JNum x2) /\ assoc "y2" fields = Some (JNum y2)
        /\ forall img, open_rgb env image_path = Ok img ->
             x1 < 0 \/ y1 < 0 \/ width img < x2 \/ height img < y2
             \/ x2 <= x1 \/ y2 <= y1) ->
  exists result,
    compute_average_rgb_body float np_stat py_str env (JObj fields) image_path
      = Ok result
    /\ compute_average_rgb float np_stat py_str env (JObj fields) image_path
       = result
    /\ success result = false
    /\ data result = None
    /\ error result <> "".
Proof.
  intros Hbad. unfold compute_average_rgb, compute_average_rgb_body.
  destruct (path_exists env image_path); cbn [negb];
    [|eexists; now repeat split].
  destruct Hbad as [(k & Hk & Hnone)|(x1 & y1 & x2 & y2 & H1 & H2 & H3 & H4 & Hbad)].
  - destruct (truthy (JObj fields)); cbn [negb];
      [rewrite (all_in_missing_key fields k Hk Hnone)|];
      cbn [mbind res_bind bind negb]; eexists; now repeat split.
  - assert (truthy (JObj fields) = true) as -> by (now destruct fields).
    cbn [negb].
    rewrite (all_in_bbox_keys fields _ _ _ _ H1 H2 H3 H4).
    cbn [mbind res_bind bind negb].
    destruct (open_rgb env image_path) as [img|e] eqn:Hopen;
      [|eexists; now repeat split].
    cbn [subscript]. rewrite H1, H2, H3, H4. cbn [mbind res_bind bind].
    rewrite invalid_coordinates_spec.
    assert ((x1 <? 0) || (y1 <? 0) || (width img <? x2) || (height img <? y2)
            || (x2 <=? x1) || (y2 <=? y1) = true) as ->.
    { specialize (Hbad img eq_refl).
      destruct (Z.ltb_spec x1 0), (Z.ltb_spec y1 0),
        (Z.ltb_spec (width img) x2), (Z.ltb_spec (height img) y2),
        (Z.leb_spec x2 x1), (Z.leb_spec y2 y1); try reflexivity; lia. }
    cbn [mbind res_bind bind]. eexists. now repeat split.
Qed.

End AverageRgb.

Lemma compute_average_rgb_rejects_witness :
  exists result,
    compute_average_rgb_body Z sum_stat scalar_str tiny_env
      (JObj [("x1", JNum 1); ("y1", JNum 0); ("x2", JNum 1); ("y2", JNum 2)])
      "card.png" = Ok result
    /\ compute_average_rgb Z sum_stat scalar_str tiny_env
         (JObj [("x1", JNum 1); ("y1", JNum 0); ("x2", JNum 1); ("y2", JNum 2)])
         "card.png" = result
    /\ success result = false
    /\ data result = None
    /\ error result <> "".
Proof.
  apply (compute_average_rgb_rejects Z sum_stat scalar_str tiny_env
           [("x1", JNum 1); ("y1", JNum 0); ("x2", JNum 1); ("y2", JNum 2)]
           "card.png").
  right. exists 1, 0, 1, 2. repeat split; try reflexivity.
  intros img _. lia.
Defined.

(** ** C8: exceptions at the boundary of a tool *)


(** A coordinate that is no number raises [TypeError] inside the
    average-RGB tool, which returns it as a failure. *)
Example compute_average_rgb_type_error :
  compute_average_rgb Z sum_stat scalar_str tiny_env
    (JObj [("x1", JStr "a"); ("y1", JNum 0); ("x2", JNum 1); ("y2", JNum 1)])
    "card.png"
  = avg_failure Z "TypeError"
      "Failed to compute average RGB values due to an error.".
Proof. reflexivity. Qed.

(** Regions that are no list raise [TypeError] inside the region
    statistics, which return it as a failure. *)
Example analyze_image_regions_type_error :
  analyze_image_regions Z sum_stat tiny_env "card.png" (JNum 3)
  = regions_failure Z "TypeError"
      "Failed to analyze image regions due to an error.".
Proof. reflexivity. Qed.


Section Boundaries.

Variable float : Type.
Variable np_stat : string -> list Z -> res float.
Variable py_str : json -> string.



End Boundaries.






(** With a storage that can be written the image is saved under a fresh
    name and the envelope gives its path. *)
Example dynamic_tool_func_download :
  dynamic_tool_func scalar_str default_settings
    (constant_world (Responded png_response))
    "/cards/{id}/download-image" "get" card_operation
    (Some card_parameters) no_effects
  = (Ok (JObj [("success", JBool true);
               ("filename", JStr "./storage/00000000-0000-4000-8000-000000000000.png");
               ("path", JStr "./storage/00000000-0000-4000-8000-000000000000.png");
               ("content_type", JStr "image/png");
               ("description",
                JStr "The binary data has been saved to: ./storage/00000000-0000-4000-8000-000000000000.png")]),
     {| sent := [{| req_method := "GET";
                    req_url := "https://pad.crc.nd.edu/cards/7/download-image";
                    req_params := Some (<["verbose" := JBool true]> ∅);
                    req_json := None;
                    req_headers := [];
                    req_timeout := 30 |}];
        made_dirs := [];
        written := [("./storage/00000000-0000-4000-8000-000000000000.png", "PNG")] |}).
Proof. vm_compute. reflexivity. Qed.

(** The case of the test of the repository: the box (10, 10, 50, 50) of
    an image of 100 by 100 pixels. *)
Example compute_average_rgb_test :
  compute_average_rgb Z floor_mean scalar_str uniform_env
    (JObj [("x1", JNum 10); ("y1", JNum 10); ("x2", JNum 50); ("y2", JNum 50)])
    "test_image.png"
  = {| success := true;
       data := Some {| avg_r := 10; avg_g := 20; avg_b := 30;
                       region_size := (40, 40) |};
       error := "";
       description :=
         "Computed average RGB values for the specified bounding box (40x40 pixels)." |}.
Proof. vm_compute. reflexivity. Qed.

(** * Further properties of the code *)

(** ** The characters of an identifier *)

Lemma mem_ascii_app c s t :
  mem_ascii c (s +:+ t) = mem_ascii c s || mem_ascii c t.
Proof.
  induction s as [|d s IH]; [reflexivity|].
  simpl. rewrite IH. now destruct (Ascii.eqb c d).
Qed.

Lemma startswith_single a c s :
  startswith (String a EmptyString) (String c s) = Ascii.eqb a c.
Proof. cbn [startswith]. apply andb_true_r. Qed.

(** A replacement of one character by a text without it removes the
    character. *)
Lemma mem_ascii_replace_removed a new s :
  mem_ascii a new = false ->
  mem_ascii a (replace (String a EmptyString) new s) = false.
Proof.
  intros Hnew. unfold replace.
  induction s as [|c s IH]; [reflexivity|].
  cbn [replace_from String.length Nat.sub]. rewrite startswith_single.
  destruct (Ascii.eqb_spec a c) as [<-|Hne].
  - now rewrite mem_ascii_app, Hnew, IH.
  - cbn [mem_ascii]. destruct (Ascii.eqb_spec a c); [congruence|exact IH].
Qed.

(** A replacement brings in no character that is neither in the string
    nor in the new text. *)
Lemma mem_ascii_replace_from c old new k s :
  mem_ascii c new = false -> mem_ascii c s = false ->
  mem_ascii c (replace_from old new k s) = false.
Proof.
  intros Hnew. revert k.
  induction s as [|d s IH]; intros k Hs; [reflexivity|].
  cbn [mem_ascii] in Hs.
  destruct (Ascii.eqb c d) eqn:Hcd; [discriminate|].
  destruct k as [|k]; cbn [replace_from]; [|now apply IH].
  destruct (startswith old (String d s)).
  - rewrite mem_ascii_app, Hnew. now apply IH.
  - cbn [mem_ascii]. rewrite Hcd. now apply IH.
Qed.

Lemma mem_ascii_replace c old new s :
  mem_ascii c new = false -> mem_ascii c s = false ->
  mem_ascii c (replace old new s) = false.
Proof. apply mem_ascii_replace_from. Qed.

Lemma mem_ascii_lstrip c chars s :
  mem_ascii c s = false -> mem_ascii c (lstrip chars s) = false.
Proof.
  induction s as [|d s IH]; [reflexivity|].
  cbn [lstrip]. intros Hs. destruct (mem_ascii d chars); [|exact Hs].
  cbn [mem_ascii] in Hs. destruct (Ascii.eqb c d); [discriminate|].
  now apply IH.
Qed.

(** X1.  Whatever the method and the path, the identifier has no space,
    no slash, no brace and no hyphen. *)
Theorem normalize_tool_name_characters method path c :
  mem_ascii c " /{}-" = true ->
  mem_ascii c (normalize_tool_name method path) = false.
Proof.
  intros Hc. unfold normalize_tool_name, separators_to_underscores.
  apply mem_ascii_lstrip.
  cbn [mem_ascii] in Hc.
  destruct (Ascii.eqb_spec c " ") as [E|_].
  { rewrite E. do 5 (apply mem_ascii_replace; [reflexivity|]).
    now apply mem_ascii_replace_removed. }
  destruct (Ascii.eqb_spec c "/") as [E|_].
  { rewrite E. do 4 (apply mem_ascii_replace; [reflexivity|]).
    now apply mem_ascii_replace_removed. }
  destruct (Ascii.eqb_spec c "{") as [E|_].
  { rewrite E. do 3 (apply mem_ascii_replace; [reflexivity|]).
    now apply mem_ascii_replace_removed. }
  destruct (Ascii.eqb_spec c "}") as [E|_].
  { rewrite E. do 2 (apply mem_ascii_replace; [reflexivity|]).
    now apply mem_ascii_replace_removed. }
  destruct (Ascii.eqb_spec c "-") as [E|_]; [rewrite E|discriminate].
  apply mem_ascii_replace; [reflexivity|].
  now apply mem_ascii_replace_removed.
Qed.

Lemma normalize_tool_name_characters_witness :
  mem_ascii "/" (normalize_tool_name "GET" "/pets/{pet-id}") = false.
Proof.
  apply (normalize_tool_name_characters "GET" "/pets/{pet-id}" "/").
  reflexivity.
Defined.

Lemma lstrip_head chars s :
  match lstrip chars s with
  | String c _ => mem_ascii c chars = false
  | EmptyString => True
  end.
Proof.
  induction s as [|c s IH]; [exact I|].
  cbn [lstrip]. destruct (mem_ascii c chars) eqn:Hc; [exact IH|exact Hc].
Qed.

(** X2.  No identifier starts with an underscore. *)
Theorem normalize_tool_name_no_leading_underscore method path :
  startswith "_" (normalize_tool_name method path) = false.
Proof.
  unfold normalize_tool_name.
  pose proof (lstrip_head "_" (replace "__" "_"
    (separators_to_underscores (lower method +:+ " " +:+ path)))) as H.
  destruct (lstrip _ _) as [|c r]; [reflexivity|].
  rewrite startswith_single. cbn [mem_ascii] in H.
  rewrite Ascii.eqb_sym. now destruct (Ascii.eqb c "_").
Qed.

(** ** The method in an identifier *)

Lemma allowed_method_cases method :
  is_allowed_method method = true ->
  lower method = "get" \/ lower method = "post" \/ lower method = "put"
  \/ lower method = "delete" \/ lower method = "patch".
Proof.
  unfold is_allowed_method, allowed_methods. cbn [existsb].
  intros H.
  repeat (apply orb_prop in H as [H|H];
          [apply String.eqb_eq in H; rewrite H; tauto|]).
  discriminate.
Qed.

(** The identifier of an operation under one of the five methods: the
    method in lower case, an underscore, and the rest. *)
Lemma normalize_tool_name_prefix method path :
  is_allowed_method method = true ->
  exists rest,
    normalize_tool_name method path = lower method +:+ "_" +:+ rest.
Proof.
  intros H. unfold normalize_tool_name, separators_to_underscores, replace.
  destruct (allowed_method_cases method H) as [E|[E|[E|[E|E]]]];
    rewrite E; repeat (progress (cbv [String.append]; cbn));
    match goal with
    | |- context [if ?b then _ else _] => destruct b
    end; repeat (progress (cbv [String.append]; cbn));
    eexists; reflexivity.
Qed.

(** X3.  The identifier of an operation under one of the five methods is
    not empty: it starts with the method in lower case and an
    underscore. *)
Theorem normalize_tool_name_starts_with_method method path :
  is_allowed_method method = true ->
  startswith (lower method +:+ "_") (normalize_tool_name method path) = true
  /\ normalize_tool_name method path <> EmptyString.
Proof.
  intros H.
  destruct (normalize_tool_name_prefix method path H) as [rest ->].
  destruct (allowed_method_cases method H) as [E|[E|[E|[E|E]]]];
    rewrite E; split; try reflexivity; discriminate.
Qed.

Lemma normalize_tool_name_starts_with_method_witness :
  startswith (lower "DELETE" +:+ "_")
    (normalize_tool_name "DELETE" "/cards/{id}") = true
  /\ normalize_tool_name "DELETE" "/cards/{id}" <> EmptyString.
Proof.
  apply (normalize_tool_name_starts_with_method "DELETE" "/cards/{id}").
  reflexivity.
Defined.

(** X4.  Two operations under different methods never share an
    identifier, whatever their paths: a collision needs the same method,
    up to the case of its letters. *)
Theorem normalize_tool_name_methods_apart method1 path1 method2 path2 :
  is_allowed_method method1 = true ->
  is_allowed_method method2 = true ->
  lower method1 <> lower method2 ->
  normalize_tool_name method1 path1 <> normalize_tool_name method2 path2.
Proof.
  intros H1 H2 Hne.
  destruct (normalize_tool_name_prefix method1 path1 H1) as [rest1 ->].
  destruct (normalize_tool_name_prefix method2 path2 H2) as [rest2 ->].
  destruct (allowed_method_cases method1 H1) as [E1|[E1|[E1|[E1|E1]]]];
    destruct (allowed_method_cases method2 H2) as [E2|[E2|[E2|[E2|E2]]]];
    rewrite E1, E2 in *; try congruence; cbn; discriminate.
Qed.

Lemma normalize_tool_name_methods_apart_witness :
  normalize_tool_name "GET" "/cards" <> normalize_tool_name "post" "/cards".
Proof.
  apply (normalize_tool_name_methods_apart "GET" "/cards" "post" "/cards");
    [reflexivity|reflexivity|discriminate].
Defined.

Lemma lower_upper_ascii c : lower_ascii (upper_ascii c) = lower_ascii c.
Proof.
  destruct c as [[] [] [] [] [] [] [] []]; reflexivity.
Qed.

Lemma lower_upper s : lower (upper s) = lower s.
Proof.
  induction s as [|c s IH]; [reflexivity|].
  unfold lower, upper in *. cbn [map_string].
  now rewrite lower_upper_ascii, IH.
Qed.

(** X5.  The case of the letters of the method does not reach the
    identifier: two methods equal up to case give the same identifier on
    the same path. *)
Theorem normalize_tool_name_method_case method1 method2 path :
  upper method1 = upper method2 ->
  normalize_tool_name method1 path = normalize_tool_name method2 path.
Proof.
  intros H. unfold normalize_tool_name.
  now rewrite <- (lower_upper method1), H, lower_upper.
Qed.

Lemma normalize_tool_name_method_case_witness :
  normalize_tool_name "Get" "/cards" = normalize_tool_name "gET" "/cards".
Proof.
  apply (normalize_tool_name_method_case "Get" "gET" "/cards"). reflexivity.
Defined.

(** ** The filter *)

Lemma startswith_lower_both q s :
  startswith q s = true -> startswith (lower q) (lower s) = true.
Proof.
  revert s. induction q as [|a q IH]; intros s; [reflexivity|].
  destruct s as [|b s]; [discriminate|].
  change (lower (String a q)) with (String (lower_ascii a) (lower q)).
  change (lower (String b s)) with (String (lower_ascii b) (lower s)).
  cbn [startswith]. intros [Hab Hqs]%andb_prop.
  apply Ascii.eqb_eq in Hab. subst b.
  now rewrite Ascii.eqb_refl, IH.
Qed.

Lemma contains_lower q s :
  contains q s = true -> contains (lower q) (lower s) = true.
Proof.
  induction s as [|c s IH].
  - change (lower EmptyString) with EmptyString.
    cbn [contains]. rewrite !orb_false_r. apply startswith_lower_both.
  - rewrite contains_cons.
    change (lower (String c s)) with (String (lower_ascii c) (lower s)).
    rewrite contains_cons.
    change (String (lower_ascii c) (lower s)) with (lower (String c s)).
    intros [H|H]%orb_prop.
    + now rewrite (startswith_lower_both _ _ H).
    + rewrite (IH H). apply orb_true_r.
Qed.

(** X6.  A path that contains an excluded pattern, in any case of its
    letters, is rejected whatever the method and the operation are, and
    without an exception even for an operation that is no object. *)
Theorem should_register_endpoint_excluded cfg path method operation q :
  In (lower q) (excluded_endpoint_patterns cfg) ->
  contains q path = true ->
  should_register_endpoint cfg path method operation = Ok false.
Proof.
  intros Hin Hq. unfold should_register_endpoint, matches_excluded.
  replace (existsb _ _) with true; [reflexivity|].
  symmetry. apply existsb_exists. exists (lower q).
  split; [exact Hin|now apply contains_lower].
Qed.

Lemma should_register_endpoint_excluded_witness :
  should_register_endpoint default_settings "/Cards/Live-STREAM" "get" JNull
  = Ok false.
Proof.
  apply (should_register_endpoint_excluded default_settings
           "/Cards/Live-STREAM" "get" JNull "STREAM").
  - left. reflexivity.
  - reflexivity.
Defined.

(** X7.  An operation that declares no binary content type is accepted
    exactly when no excluded pattern occurs in its path. *)
Theorem should_register_endpoint_plain cfg path method operation :
  well_formed_operation operation = true ->
  declares_binary operation = false ->
  should_register_endpoint cfg path method operation =
  Ok (negb (matches_excluded cfg path)).
Proof.
  intros Hwf Hplain.
  rewrite should_register_endpoint_well_formed by exact Hwf.
  rewrite Hplain. cbn [andb negb]. now rewrite andb_true_r.
Qed.

Lemma should_register_endpoint_plain_witness :
  should_register_endpoint default_settings "/cards/{id}" "get" card_operation
  = Ok (negb (matches_excluded default_settings "/cards/{id}")).
Proof.
  apply (should_register_endpoint_plain default_settings "/cards/{id}" "get"
           card_operation); reflexivity.
Defined.

(** ** The registration pass on any document *)

(** X8.  Whatever the document, and whether or not the pass ends with an
    exception, the pass removes and replaces no tool of the server: the
    tools after it are the tools before it followed by the tools it
    added.  Each added tool is one of its calls of [add_tool], in their
    order: the closure of an operation under one of the five methods
    that the filter accepts, named after its method and path.  The
    counter of the pass counts the calls, so it bounds the number of
    tools added. *)
Theorem register_openapi_endpoints_only_adds py_str cfg spec server :
  exists added,
    FastMCP.tools (FastMCP.after_pass py_str cfg spec server)
      = FastMCP.tools server ++ added
    /\ sublist added (FastMCP.pass_calls py_str cfg spec)
    /\ Forall (registered_by cfg) added
    /\ (length added
        <= registered_count
             (fst (register_openapi_endpoints_as_tools py_str cfg [] spec)))%nat.
Proof.
  destruct (serve_spec (FastMCP.pass_calls py_str cfg spec) server)
    as (added & collisions & Htools & _ & Hlen & Hsub & _).
  destruct (pass_calls_registered py_str cfg spec) as [Hcount Hall].
  exists added. repeat split; try assumption.
  - rewrite Forall_forall in *. intros t Ht. apply Hall.
    eapply elem_of_sublist; eassumption.
  - rewrite Hcount. lia.
Qed.


Lemma length_filter_split {A} (f : A -> bool) (l : list A) :
  (length (filter (fun x => f x = true) l)
   + length (filter (fun x => f x = false) l))%nat = length l.
Proof.
  induction l as [|x l IH]; [reflexivity|].
  destruct (f x) eqn:Hx.
  - rewrite filter_cons_True by exact Hx.
    rewrite filter_cons_False by (rewrite Hx; discriminate).
    cbn [length]. lia.
  - rewrite filter_cons_False by (rewrite Hx; discriminate).
    rewrite filter_cons_True by exact Hx.
    cbn [length]. lia.
Qed.

(** X10.  On a well-formed document every operation under one of the
    five methods is counted once, as registered or as skipped; entries
    under other keys are not counted. *)
Theorem register_openapi_endpoints_counts py_str cfg registry spec :
  well_formed_document spec = true ->
  (registered_count
     (fst (register_openapi_endpoints_as_tools py_str cfg registry spec))
   + skipped_count
       (fst (register_openapi_endpoints_as_tools py_str cfg registry spec)))%nat
  = length (operations_of spec).
Proof.
  intros Hwf. rewrite register_openapi_endpoints_well_formed by exact Hwf.
  cbn [fst registered_count skipped_count]. unfold eligible, rejected.
  apply length_filter_split.
Qed.

Lemma register_openapi_endpoints_counts_witness :
  (registered_count
     (fst (register_openapi_endpoints_as_tools scalar_str default_settings []
             colliding_document))
   + skipped_count
       (fst (register_openapi_endpoints_as_tools scalar_str default_settings []
               colliding_document)))%nat
  = length (operations_of colliding_document).
Proof.
  apply (register_openapi_endpoints_counts scalar_str default_settings []
           colliding_document).
  reflexivity.
Defined.

(** X11.  When the document cannot be fetched (a timeout, a connection
    failure, another exception of the request, or an answer with a
    status from 400 to 599) the registration ends without an exception
    and adds the static tool only. *)
Theorem register_api_tools_fetch_failure py_str cfg fetch registry :
  match fetch with
  | Responded r => 400 <= status_code r < 600
  | _ => True
  end ->
  register_api_tools py_str cfg fetch registry =
  (registry ++ [download_ontology_tool], None).
Proof.
  intros H. apply register_api_tools_skip.
  destruct fetch as [r| | |msg]; try exact I.
  cbn [fetch_openapi_spec]. unfold raise_for_status.
  destruct ((400 <=? status_code r) && (status_code r <? 500)) eqn:H4;
    [exact I|].
  destruct ((500 <=? status_code r) && (status_code r <? 600)) eqn:H5;
    [exact I|].
  apply andb_false_iff in H4, H5. lia.
Qed.

Lemma register_api_tools_fetch_failure_witness :
  register_api_tools scalar_str default_settings Timeout [] =
  ([] ++ [download_ontology_tool], None).
Proof.
  apply (register_api_tools_fetch_failure scalar_str default_settings Timeout []).
  exact I.
Defined.

(** ** The executor *)

(** X12.  A call of the executor sends one request and never retries;
    the request carries the headers of the configuration, and its query
    parameters or its JSON body are absent: a GET has no body even when
    the caller passes one, another method has no query parameters. *)
Theorem make_api_request_single_request cfg w url method params json_data
    timeout fx :
  exists request,
    sent (snd (make_api_request cfg w url method params json_data timeout fx))
      = sent fx ++ [request]
    /\ req_headers request = get_headers cfg
    /\ (req_params request = None \/ req_json request = None)
    /\ (if String.eqb (upper method) "GET"
        then req_json request = None /\ req_params request = params
        else req_params request = None /\ req_json request = json_data).
Proof.
  eexists. split; [apply make_api_request_sent|].
  cbn [req_headers req_params req_json].
  destruct (String.eqb (upper method) "GET"); repeat split; auto.
Qed.





Lemma configured_some o s :
  configured o = Some s <-> o = Some s /\ s <> EmptyString.
Proof.
  unfold configured. destruct o as [s'|]; [|split; [discriminate|tauto]].
  destruct (String.eqb_spec s' EmptyString) as [->|Hne]; split.
  - discriminate.
  - intros [[= <-] H]. now destruct H.
  - intros [= <-]. now split.
  - now intros [[= <-] _].
Qed.

(** X14.  The API key header is sent exactly when a key that is not
    empty is configured, and the bearer header exactly when such a token
    is; the two do not exclude each other. *)
Theorem get_headers_configured cfg k t :
  (In ("X-API-Key", k) (get_headers cfg)
   <-> api_key cfg = Some k /\ k <> EmptyString)
  /\ (In ("Authorization", "Bearer " +:+ t) (get_headers cfg)
      <-> auth_token cfg = Some t /\ t <> EmptyString).
Proof.
  unfold get_headers. rewrite <- !configured_some, !in_app_iff.
  destruct (configured (api_key cfg)) as [k'|],
    (configured (auth_token cfg)) as [t'|]; cbn;
    repeat split; intros H;
    repeat match goal with
      | H : _ \/ _ |- _ => destruct H as [H|H]
      | H : False |- _ => destruct H
      | H : (_, _) = (_, _) |- _ => injection H as H; subst
      end;
    try discriminate; try congruence; auto.
  all: try (cbv [String.append] in *; congruence).
  all: injection H as ->; intuition.
Qed.

(** ** The closure *)

Lemma without_absent names : forall params : gmap string json,
  (forall name, name ∈ names -> params !! name = None) ->
  without names params = params.
Proof.
  unfold without.
  induction names as [|name names IH]; intros params H; [reflexivity|].
  cbn [fold_left]. rewrite delete_id by (apply H; now left).
  apply IH. intros n Hn. apply H. now right.
Qed.

Lemma substituted_url_absent py_str names : forall params url,
  (forall name, name ∈ names -> params !! name = None) ->
  substituted_url py_str names params url = url.
Proof.
  induction names as [|name names IH]; intros params url H; [reflexivity|].
  cbn [substituted_url]. rewrite (H name) by now left.
  apply IH. intros n Hn. apply H. now right.
Qed.

(** X15.  When the mapping supplies none of the declared path
    parameters, nothing is substituted and nothing is removed: the
    request goes to the URL template as it is, braces included, with the
    whole mapping. *)
Theorem prepare_call_nothing_supplied py_str cfg path operation parameters :
  well_formed_parameters operation = true ->
  (forall name, name ∈ path_names operation ->
                default ∅ parameters !! name = None) ->
  prepare_call py_str cfg path operation parameters =
  Ok (default ∅ parameters, server_base_url cfg +:+ path).
Proof.
  intros Hwf Habsent.
  rewrite prepare_call_well_formed by exact Hwf.
  now rewrite without_absent, substituted_url_absent.
Qed.

Lemma prepare_call_nothing_supplied_witness :
  prepare_call scalar_str default_settings "/cards/{id}" card_operation None =
  Ok (default ∅ None, server_base_url default_settings +:+ "/cards/{id}").
Proof.
  apply (prepare_call_nothing_supplied scalar_str default_settings
           "/cards/{id}" card_operation None).
  - reflexivity.
  - intros name _. apply lookup_empty.
Defined.

(** ** The image tools *)

(** X16.  The clamping leaves a box inside the image as it is, and
    clamping twice is clamping once. *)
Theorem clamp_bbox_idempotent w h x1 y1 x2 y2 :
  1 <= w -> 1 <= h ->
  (0 <= x1 < x2 -> x2 <= w -> 0 <= y1 < y2 -> y2 <= h ->
   clamp_bbox w h x1 y1 x2 y2 = (x1, y1, x2, y2))
  /\ match clamp_bbox w h x1 y1 x2 y2 with
     | (a, b, c, d) => clamp_bbox w h a b c d = (a, b, c, d)
     end.
Proof.
  intros Hw Hh. unfold clamp_bbox. split.
  - intros Hx Hx2 Hy Hy2.
    repeat match goal with |- (_, _) = (_, _) => f_equal end; lia.
  - repeat match goal with |- (_, _) = (_, _) => f_equal end; lia.
Qed.

Lemma clamp_bbox_idempotent_witness :
  (0 <= 10 < 50 -> 50 <= 100 -> 0 <= 10 < 50 -> 50 <= 100 ->
   clamp_bbox 100 100 10 10 50 50 = (10, 10, 50, 50))
  /\ match clamp_bbox 100 100 10 10 50 50 with
     | (a, b, c, d) => clamp_bbox 100 100 a b c d = (a, b, c, d)
     end.
Proof.
  apply (clamp_bbox_idempotent 100 100 10 10 50 50); lia.
Defined.

Section AverageOfValidBox.

Variable float : Type.
Variable np_stat : string -> list Z -> res float.
Variable py_str : json -> string.

Hypothesis np_stat_total :
  forall metric values, values <> [] -> exists v, np_stat metric values = Ok v.

(** X17.  For an existing image and a box with integer coordinates
    inside it, the average-RGB tool succeeds: each average is the
    statistic of its channel over the box, which holds one value per
    pixel, and the size reported is that of the box. *)
Theorem compute_average_rgb_valid_box env fields image_path img x1 y1 x2 y2 :
  path_exists env image_path = true ->
  open_rgb env image_path = Ok img ->
  well_formed img ->
  assoc "x1" fields = Some (JNum x1) -> assoc "y1" fields = Some (JNum y1) ->
  assoc "x2" fields = Some (JNum x2) -> assoc "y2" fields = Some (JNum y2) ->
  0 <= x1 < x2 -> x2 <= width img -> 0 <= y1 < y2 -> y2 <= height img ->
  exists r g b,
    np_stat "avg" (channel_data 0 (extract img x1 y1 x2 y2)) = Ok r
    /\ np_stat "avg" (channel_data 1 (extract img x1 y1 x2 y2)) = Ok g
    /\ np_stat "avg" (channel_data 2 (extract img x1 y1 x2 y2)) = Ok b
    /\ (forall idx,
          length (channel_data idx (extract img x1 y1 x2 y2))
          = Z.to_nat ((x2 - x1) * (y2 - y1)))
    /\ compute_average_rgb float np_stat py_str env (JObj fields) image_path =
       {| success := true;
          data := Some {| avg_r := r; avg_g := g; avg_b := b;
                          region_size := (x2 - x1, y2 - y1) |};
          error := EmptyString;
          description :=
            "Computed average RGB values for the specified bounding box ("
            +:+ pretty (x2 - x1) +:+ "x" +:+ pretty (y2 - y1) +:+ " pixels)." |}.
Proof.
  intros Hexists Hopen Hwf H1 H2 H3 H4 Hx Hx2 Hy Hy2.
  destruct (np_stat_total "avg" (channel_data 0 (extract img x1 y1 x2 y2)))
    as [r Hr]; [now apply channel_data_nonempty|].
  destruct (np_stat_total "avg" (channel_data 1 (extract img x1 y1 x2 y2)))
    as [g Hg]; [now apply channel_data_nonempty|].
  destruct (np_stat_total "avg" (channel_data 2 (extract img x1 y1 x2 y2)))
    as [b Hb]; [now apply channel_data_nonempty|].
  exists r, g, b. repeat split; try assumption.
  - intros idx. rewrite length_channel_data by (try assumption; lia). nia.
  - unfold compute_average_rgb, compute_average_rgb_body.
    rewrite Hexists. cbn [negb].
    assert (truthy (JObj fields) = true) as -> by (now destruct fields).
    cbn [negb]. rewrite (all_in_bbox_keys fields _ _ _ _ H1 H2 H3 H4).
    cbn [mbind res_bind bind negb]. rewrite Hopen.
    cbn [subscript]. rewrite H1, H2, H3, H4. cbn [mbind res_bind bind].
    rewrite invalid_coordinates_spec.
    assert ((x1 <? 0) || (y1 <? 0) || (width img <? x2) || (height img <? y2)
            || (x2 <=? x1) || (y2 <=? y1) = false) as ->.
    { destruct (Z.ltb_spec x1 0), (Z.ltb_spec y1 0),
        (Z.ltb_spec (width img) x2), (Z.ltb_spec (height img) y2),
        (Z.leb_spec x2 x1), (Z.leb_spec y2 y1); try reflexivity; lia. }
    cbn [as_int mbind res_bind bind]. rewrite Hr, Hg, Hb. reflexivity.
Qed.

End AverageOfValidBox.

Lemma compute_average_rgb_valid_box_witness :
  exists r g b,
    sum_stat "avg" (channel_data 0 (extract tiny_image 0 0 2 1)) = Ok r
    /\ sum_stat "avg" (channel_data 1 (extract tiny_image 0 0 2 1)) = Ok g
    /\ sum_stat "avg" (channel_data 2 (extract tiny_image 0 0 2 1)) = Ok b
    /\ (forall idx,
          length (channel_data idx (extract tiny_image 0 0 2 1))
          = Z.to_nat ((2 - 0) * (1 - 0)))
    /\ compute_average_rgb Z sum_stat scalar_str tiny_env
         (JObj [("x1", JNum 0); ("y1", JNum 0); ("x2", JNum 2); ("y2", JNum 1)])
         "card.png" =
       {| success := true;
          data := Some {| avg_r := r; avg_g := g; avg_b := b;
                          region_size := (2 - 0, 1 - 0) |};
          error := EmptyString;
          description :=
            "Computed average RGB values for the specified bounding box ("
            +:+ pretty (2 - 0) +:+ "x" +:+ pretty (1 - 0) +:+ " pixels)." |}.
Proof.
  apply (compute_average_rgb_valid_box Z sum_stat scalar_str
           (fun metric values _ =>
              ex_intro _ (fold_right Z.add 0 values) eq_refl)
           tiny_env
           [("x1", JNum 0); ("y1", JNum 0); ("x2", JNum 2); ("y2", JNum 1)]
           "card.png" tiny_image 0 0 2 1);
    first [reflexivity | cbn; lia
          | unfold well_formed; cbn; repeat split; try lia; repeat constructor].
Defined.

Lemma key_eqb_refl name : hashable name = true -> key_eqb name name = true.
Proof.
  destruct name as [| [] |n|s| |]; try discriminate; intros _; cbn;
    try reflexivity; [apply Z.eqb_refl|apply String.eqb_refl].
Qed.

Section RegionEntries.

Variable float : Type.
Variable np_stat : string -> list Z -> res float.

Lemma set_entry_length_le name entry (results : list (json * RegionResult float)) :
  (length (set_entry float name entry results) <= S (length results))%nat.
Proof.
  induction results as [|[k v] results IH]; cbn [set_entry length]; [lia|].
  destruct (key_eqb k name); cbn [length]; lia.
Qed.

(** Assigning twice under one key keeps one entry for it. *)
Lemma set_entry_twice name e1 e2 (results : list (json * RegionResult float)) :
  hashable name = true ->
  length (set_entry float name e2 (set_entry float name e1 results))
  = length (set_entry float name e1 results).
Proof.
  intros Hname.
  induction results as [|[k v] results IH]; cbn [set_entry].
  - now rewrite (key_eqb_refl name Hname).
  - destruct (key_eqb k name) eqn:Hk; cbn [set_entry]; rewrite Hk;
      cbn [length]; [reflexivity|now rewrite IH].
Qed.

Lemma set_item_ok name entry results results' :
  set_item float name entry results = Ok results' ->
  hashable name = true /\ results' = set_entry float name entry results.
Proof.
  unfold set_item. destruct (hashable name); [|discriminate].
  now intros [= <-].
Qed.

Lemma analyze_region_length img i region results results' :
  analyze_region float np_stat img i region results = Ok results' ->
  (length results' <= S (length results))%nat.
Proof.
  unfold analyze_region. intros H.
  do 4 (apply bind_ok in H as (? & _ & H)).
  apply bind_ok in H as (has_keys & _ & H).
  destruct has_keys; cbn [negb] in H.
  - do 8 (apply bind_ok in H as (? & _ & H)).
    destruct (clamp_bbox _ _ _ _ _ _) as [[[a b] c] d].
    apply bind_ok in H as (results1 & Hset & H).
    apply set_item_ok in Hset as [Hname ->].
    apply bind_ok in H as (channels & _ & [= <-]).
    rewrite set_entry_twice by exact Hname. apply set_entry_length_le.
  - apply set_item_ok in H as [_ ->]. apply set_entry_length_le.
Qed.

Lemma analyze_regions_from_length img regions : forall i results results',
  analyze_regions_from float np_stat img i regions results = Ok results' ->
  (length results' <= length results + length regions)%nat.
Proof.
  induction regions as [|region regions IH]; intros i results results' H.
  - cbn in H. injection H as <-. lia.
  - cbn [analyze_regions_from] in H.
    apply bind_ok in H as (results1 & H1 & H).
    apply analyze_region_length in H1. apply IH in H. cbn [length]. lia.
Qed.

(** X19.  The result of the region statistics holds at most one entry
    per region: regions that share a name share one entry, the last one
    written, and a failure holds none. *)
Theorem analyze_image_regions_entries env image_path regions listed :
  py_iter regions = Ok listed ->
  (length (data (analyze_image_regions float np_stat env image_path regions))
   <= length listed)%nat.
Proof.
  intros Hiter. unfold analyze_image_regions, analyze_image_regions_body.
  destruct (path_exists env image_path); cbn [negb]; [|cbn; lia].
  destruct (open_rgb env image_path) as [img|e]; [|cbn; lia].
  rewrite Hiter. cbn [mbind res_bind bind].
  destruct (analyze_regions_from float np_stat img 0 listed [])
    as [results|e] eqn:Hresults; [|cbn; lia].
  apply analyze_regions_from_length in Hresults. cbn in *. lia.
Qed.

(** The metrics of a channel are among those the list passed in names
    and among the valid ones, in the order of the valid ones. *)
Lemma channel_results_keys wanted metrics values results :
  channel_results float np_stat wanted metrics values = Ok results ->
  sublist (map fst results) wanted
  /\ Forall (fun kv => existsb (is_str (fst kv)) metrics = true) results.
Proof.
  revert results.
  induction wanted as [|m wanted IH]; intros results H.
  - injection H as <-. split; constructor.
  - cbn [channel_results] in H.
    destruct (existsb (is_str m) metrics) eqn:Hm.
    + apply bind_ok in H as (v & _ & H).
      apply bind_ok in H as (rest & Hrest & [= <-]).
      destruct (IH rest Hrest) as [Hsub Hall].
      split; [now apply sublist_skip|now constructor].
    + destruct (IH results H) as [Hsub Hall].
      split; [now apply sublist_cons|exact Hall].
Qed.

(** X20.  The statistics of a region have the three channels r, g and b,
    and under each only metrics that are valid and were asked for, each
    at most once and in the order avg, std, min, max, median, mode. *)
Theorem all_channels_keys metrics region channels :
  all_channels float np_stat metrics region = Ok channels ->
  map fst channels = ["r"; "g"; "b"]
  /\ Forall (fun ch =>
               sublist (map fst (snd ch)) valid_metrics
               /\ Forall (fun kv => existsb (is_str (fst kv)) metrics = true)
                         (snd ch))
            channels.
Proof.
  unfold all_channels. intros H.
  apply bind_ok in H as (r & Hr & H).
  apply bind_ok in H as (g & Hg & H).
  apply bind_ok in H as (b & Hb & [= <-]).
  split; [reflexivity|].
  do 3 (constructor;
        [cbn [snd]; eapply channel_results_keys; eassumption|]).
  constructor.
Qed.

End RegionEntries.

Lemma analyze_image_regions_entries_witness :
  (length (data (analyze_image_regions Z sum_stat tiny_env "card.png"
                   (JArr [inverted_region; incomplete_region])))
   <= length [inverted_region; incomplete_region])%nat.
Proof.
  apply (analyze_image_regions_entries Z sum_stat tiny_env "card.png"
           (JArr [inverted_region; incomplete_region])
           [inverted_region; incomplete_region]).
  reflexivity.
Defined.

Lemma all_channels_keys_witness :
  map fst [("r", [("avg", 5); ("max", 5)]); ("g", [("avg", 7); ("max", 7)]);
           ("b", [("avg", 9); ("max", 9)])] = ["r"; "g"; "b"]
  /\ Forall (fun ch =>
               sublist (map fst (snd ch)) valid_metrics
               /\ Forall (fun kv =>
                            existsb (is_str (fst kv))
                              [JStr "max"; JStr "avg"; JStr "sharpness"] = true)
                         (snd ch))
            [("r", [("avg", 5); ("max", 5)]); ("g", [("avg", 7); ("max", 7)]);
             ("b", [("avg", 9); ("max", 9)])].
Proof.
  apply (all_channels_keys Z sum_stat
           [JStr "max"; JStr "avg"; JStr "sharpness"]
           (extract tiny_image 0 0 2 1)).
  vm_compute. reflexivity.
Defined.

Section AverageSuccess.

Variable float : Type.
Variable np_stat : string -> list Z -> res float.
Variable py_str : json -> string.

(** X18.  The average-RGB tool answers with a success only for an image
    that exists and opens, and a box whose four coordinates are integers
    inside the image with a positive width and height; the size it
    reports is that of the box. *)
Theorem compute_average_rgb_success env bbox image_path :
  success (compute_average_rgb float np_stat py_str env bbox image_path) = true ->
  exists img x1 y1 x2 y2 payload,
    path_exists env image_path = true
    /\ open_rgb env image_path = Ok img
    /\ subscript bbox "x1" ≫= as_int = Ok x1
    /\ subscript bbox "y1" ≫= as_int = Ok y1
    /\ subscript bbox "x2" ≫= as_int = Ok x2
    /\ subscript bbox "y2" ≫= as_int = Ok y2
    /\ 0 <= x1 < x2 /\ x2 <= width img
    /\ 0 <= y1 < y2 /\ y2 <= height img
    /\ data (compute_average_rgb float np_stat py_str env bbox image_path)
       = Some payload
    /\ region_size float payload = (x2 - x1, y2 - y1).
Proof.
  unfold compute_average_rgb.
  destruct (compute_average_rgb_body float np_stat py_str env bbox image_path)
    as [result|e] eqn:Hbody; [|discriminate].
  intros Hsuccess. unfold compute_average_rgb_body in Hbody.
  destruct (path_exists env image_path); cbn [negb] in Hbody;
    [|injection Hbody as <-; discriminate].
  apply bind_ok in Hbody as (has_keys & _ & Hbody).
  destruct has_keys; cbn [negb] in Hbody;
    [|injection Hbody as <-; discriminate].
  destruct (open_rgb env image_path) as [img|e];
    [|injection Hbody as <-; discriminate].
  apply bind_ok in Hbody as (v1 & Hv1 & Hbody).
  apply bind_ok in Hbody as (v2 & Hv2 & Hbody).
  apply bind_ok in Hbody as (v3 & Hv3 & Hbody).
  apply bind_ok in Hbody as (v4 & Hv4 & Hbody).
  apply bind_ok in Hbody as (invalid & Hinvalid & Hbody).
  destruct invalid; [injection Hbody as <-; discriminate|].
  apply bind_ok in Hbody as (x1 & Hx1 & Hbody).
  apply bind_ok in Hbody as (y1 & Hy1 & Hbody).
  apply bind_ok in Hbody as (x2 & Hx2 & Hbody).
  apply bind_ok in Hbody as (y2 & Hy2 & Hbody).
  apply bind_ok in Hbody as (r & _ & Hbody).
  apply bind_ok in Hbody as (g & _ & Hbody).
  apply bind_ok in Hbody as (b & _ & Hbody).
  injection Hbody as <-.
  unfold invalid_coordinates, any_lazy, lt, gt, ge in Hinvalid.
  rewrite Hx1, Hy1, Hx2, Hy2 in Hinvalid.
  cbn [as_int mbind res_bind bind mret res_ret] in Hinvalid.
  destruct (Z.ltb_spec x1 0); [discriminate|].
  destruct (Z.ltb_spec y1 0); [discriminate|].
  destruct (Z.ltb_spec (width img) x2); [discriminate|].
  destruct (Z.ltb_spec (height img) y2); [discriminate|].
  destruct (Z.leb_spec x2 x1); [discriminate|].
  destruct (Z.leb_spec y2 y1); [discriminate|].
  exists img, x1, y1, x2, y2. eexists.
  rewrite Hv1, Hv2, Hv3, Hv4. cbn [mbind res_bind bind data region_size].
  repeat split; try assumption; try reflexivity; lia.
Qed.

End AverageSuccess.

Lemma compute_average_rgb_success_witness :
  exists img x1 y1 x2 y2 payload,
    path_exists tiny_env "card.png" = true
    /\ open_rgb tiny_env "card.png" = Ok img
    /\ subscript (JObj [("x1", JNum 0); ("y1", JNum 0); ("x2", JNum 2);
                        ("y2", JNum 1)]) "x1" ≫= as_int = Ok x1
    /\ subscript (JObj [("x1", JNum 0); ("y1", JNum 0); ("x2", JNum 2);
                        ("y2", JNum 1)]) "y1" ≫= as_int = Ok y1
    /\ subscript (JObj [("x1", JNum 0); ("y1", JNum 0); ("x2", JNum 2);
                        ("y2", JNum 1)]) "x2" ≫= as_int = Ok x2
    /\ subscript (JObj [("x1", JNum 0); ("y1", JNum 0); ("x2", JNum 2);
                        ("y2", JNum 1)]) "y2" ≫= as_int = Ok y2
    /\ 0 <= x1 < x2 /\ x2 <= width img
    /\ 0 <= y1 < y2 /\ y2 <= height img
    /\ data (compute_average_rgb Z sum_stat scalar_str tiny_env
               (JObj [("x1", JNum 0); ("y1", JNum 0); ("x2", JNum 2);
                      ("y2", JNum 1)]) "card.png")
       = Some payload
    /\ region_size Z payload = (x2 - x1, y2 - y1).
Proof.
  apply (compute_average_rgb_success Z sum_stat scalar_str tiny_env
           (JObj [("x1", JNum 0); ("y1", JNum 0); ("x2", JNum 2);
                  ("y2", JNum 1)]) "card.png").
  reflexivity.
Defined.

(** ** The image writer *)

Lemma split_on_pieces sep s :
  Forall (fun piece => mem_ascii sep piece = false) (split_on sep s).
Proof.
  induction s as [|c s IH]; cbn [split_on]; [now repeat constructor|].
  destruct (Ascii.eqb_spec c sep) as [->|Hne]; [now constructor|].
  destruct (split_on sep s) as [|piece pieces]; inversion IH; subst.
  - constructor; [|constructor]. cbn [mem_ascii].
    destruct (Ascii.eqb_spec sep c); [congruence|reflexivity].
  - constructor; [|assumption]. cbn [mem_ascii].
    destruct (Ascii.eqb_spec sep c); [congruence|assumption].
Qed.

(** The base name of a path has no slash. *)
Lemma basename_no_slash p : mem_ascii "/" (Save.basename p) = false.
Proof.
  unfold Save.basename.
  pose proof (split_on_pieces "/" p) as Hall.
  pose proof (split_on_not_nil "/" p) as Hne.
  induction (split_on "/" p) as [|piece pieces IH]; [congruence|].
  inversion Hall; subst.
  destruct pieces as [|piece' pieces']; [assumption|].
  apply IH; [assumption|discriminate].
Qed.

Lemma split_on_no_sep sep s :
  mem_ascii sep s = false -> split_on sep s = [s].
Proof.
  induction s as [|c s IH]; [reflexivity|].
  cbn [mem_ascii split_on]. rewrite (Ascii.eqb_sym c sep).
  destruct (Ascii.eqb sep c); [discriminate|].
  intros H. now rewrite (IH H).
Qed.

Lemma last_app_not_nil {A} (l1 l2 : list A) d :
  l2 <> [] -> List.last (l1 ++ l2) d = List.last l2 d.
Proof.
  intros Hne. induction l1 as [|x l1 IH]; [reflexivity|].
  cbn [app]. destruct (l1 ++ l2) as [|y l] eqn:E.
  - apply app_eq_nil in E as [_ ->]. congruence.
  - exact IH.
Qed.

(** The base name of a name under any directory is the name. *)
Lemma basename_under dir name :
  mem_ascii "/" name = false -> Save.basename (dir +:+ "/" +:+ name) = name.
Proof.
  intros Hname. unfold Save.basename.
  change (dir +:+ "/" +:+ name) with (dir +:+ String "/" name).
  destruct (split_on_app "/" dir name) as (piece & pieces & ->).
  rewrite app_comm_cons, last_app_not_nil by apply split_on_not_nil.
  now rewrite split_on_no_sep.
Qed.

Section SavedImages.

Variable picture : Type.

(** X21.  [save_image] answers with a success only when the data is not
    empty and opens as an image, and [img.save] raised nothing for the
    path reported.  That path is the storage directory joined with the
    file name reported, and the file name reported is the last component
    of the name asked for (of the random name with the format in lower
    case when none is given) and has no slash.  Every other answer is a
    failure: [success] false, an error and a description, and no path. *)
Theorem save_image_answer cfg (w : Save.World picture) image_data filename format fx :
  (exists err descr,
     fst (Save.save_image picture cfg w image_data filename format fx)
     = Save.save_failure err descr)
  \/ exists img,
       image_data <> EmptyString
       /\ Save.decode w image_data = Ok img
       /\ fst (Save.save w img
                 (Save.path_under (filesystem_storage cfg)
                    (saved_name w filename format)) format) = None
       /\ mem_ascii "/" (saved_name w filename format) = false
       /\ fst (Save.save_image picture cfg w image_data filename format fx)
          = JObj [("success", JBool true);
                  ("filename", JStr (saved_name w filename format));
                  ("path",
                   JStr (Save.path_under (filesystem_storage cfg)
                           (saved_name w filename format)));
                  ("description",
                   JStr ("Image successfully saved to "
                         +:+ Save.path_under (filesystem_storage cfg)
                               (saved_name w filename format)))].
Proof.
  unfold Save.save_image, Save.write_image.
  destruct (String.eqb_spec image_data EmptyString) as [|Hdata];
    [left; now eexists _, _|].
  fold (saved_name w filename format).
  destruct (Save.storage_exists w);
    [|destruct (Save.mkdir_error w); [left; now eexists _, _|]];
    (destruct (Save.decode w image_data) as [img|e]; [|left; now eexists _, _];
     destruct (Save.save w img
                 (Save.path_under (filesystem_storage cfg)
                    (saved_name w filename format)) format)
       as [[e|] held] eqn:Hsave; [left; now eexists _, _|];
     right; exists img; rewrite Hsave;
     repeat split; [exact Hdata|apply basename_no_slash]).
Qed.

(** X22.  The directory part of a file name is ignored: a name given
    under any directory is saved as the name alone. *)
Theorem save_image_ignores_directory cfg (w : Save.World picture) image_data dir
    name format fx :
  mem_ascii "/" name = false ->
  name <> EmptyString ->
  Save.save_image picture cfg w image_data (Some (dir +:+ "/" +:+ name)) format fx
  = Save.save_image picture cfg w image_data (Some name) format fx.
Proof.
  intros Hslash Hname. unfold Save.save_image.
  assert (String.eqb (dir +:+ "/" +:+ name) EmptyString = false) as ->.
  { apply String.eqb_neq. destruct dir; discriminate. }
  assert (String.eqb name EmptyString = false) as ->
    by now apply String.eqb_neq.
  rewrite basename_under by exact Hslash.
  assert (Save.basename name = name) as ->; [|reflexivity].
  unfold Save.basename. now rewrite split_on_no_sep.
Qed.

End SavedImages.

Lemma save_image_ignores_directory_witness :
  Save.save_image unit default_settings plain_writer "bytes"
    (Some ("../../etc" +:+ "/" +:+ "card.png")) "PNG" no_effects
  = Save.save_image unit default_settings plain_writer "bytes"
      (Some "card.png") "PNG" no_effects.
Proof.
  apply (save_image_ignores_directory unit default_settings plain_writer
           "bytes" "../../etc" "card.png" "PNG" no_effects).
  - reflexivity.
  - discriminate.
Defined.

(** A name that climbs out of the storage directory is cut to its last
    component. *)
Example save_image_traversal :
  Save.save_image unit default_settings plain_writer "bytes"
    (Some "../../etc/card.png") "PNG" no_effects
  = (JObj [("success", JBool true); ("filename", JStr "card.png");
           ("path", JStr "./storage/card.png");
           ("description", JStr "Image successfully saved to ./storage/card.png")],
     {| sent := []; made_dirs := [];
        written := [("./storage/card.png", "PNG")] |}).
Proof. reflexivity. Qed.

(** The last component of a name may be [..]: the path reported then
    names the directory above the storage, and whether anything is
    saved there is left to [img.save]. *)
Example save_image_parent :
  saved_name plain_writer (Some "images/..") "PNG" = ".."
  /\ get_field "path"
       (fst (Save.save_image unit default_settings plain_writer "bytes"
               (Some "images/..") "PNG" no_effects))
     = Some (JStr "./storage/..").
Proof. split; reflexivity. Qed.

(** ** The image loader *)

(** X23.  Without a width, or with a width that is not positive, the
    loader does not resize: it returns the encoding of the image as
    opened, and an exception of the encoding leaves it as a
    [ValueError]. *)
Theorem load_image_without_resize (picture : Type)
    (pic_width pic_height : picture -> Z)
    (resize : picture -> Z -> Z -> res picture)
    (scaled_height : Z -> Z -> Z -> res Z) (encode : picture -> res string)
    (disk : Files.Env picture) (path : string) (img : picture)
    (resize_width : option Z) (maintain_aspect_ratio : bool) :
  Files.path_exists picture disk path = true ->
  Files.open_image picture disk path = Ok img ->
  match resize_width with Some w => w <= 0 | None => True end ->
  Files.load_image picture pic_width pic_height resize scaled_height encode
    disk path resize_width maintain_aspect_ratio
  = match encode img with
    | Ok data => Ok data
    | Raise e =>
        Raise (ValueError ("Error loading or resizing image: " +:+ exc_str e))
    end.
Proof.
  intros Hexists Hopen Hwidth.
  unfold Files.load_image, Files.load_image_body.
  rewrite Hexists, Hopen. cbn [negb mbind res_bind bind].
  destruct resize_width as [w|]; [|reflexivity].
  destruct (Z.ltb_spec 0 w); [lia|reflexivity].
Qed.

Lemma load_image_without_resize_witness :
  Files.load_image unit (fun _ => 640) (fun _ => 480) (fun img _ _ => Ok img)
    (fun _ h _ => Ok h) (fun _ => Ok "PNG") full_disk "card.png" (Some 0) true
  = match (fun _ : unit => Ok "PNG") tt with
    | Ok data => Ok data
    | Raise e =>
        Raise (ValueError ("Error loading or resizing image: " +:+ exc_str e))
    end.
Proof.
  apply (load_image_without_resize unit (fun _ => 640) (fun _ => 480)
           (fun img _ _ => Ok img) (fun _ h _ => Ok h) (fun _ => Ok "PNG")
           full_disk "card.png" tt (Some 0) true); [reflexivity|reflexivity|].
  cbn. lia.
Defined.

(** ** The ontology tool *)

